(** * watertap-reflo: flowsheet glue code, embedded and checked

    The repository assembles Pyomo/IDAES process models and hands them to an
    external solver.  This development embeds the parts of the scripts that
    carry behaviour of their own: the cost expressions and linking pairs of
    the multi-period PV/battery/RO model, the input override of [add_vagmd],
    the scaling and initialization methods, the [solve] helper, the order in
    which the runnable scripts assemble, solve and report, and the shape of
    the assertions in the two test modules.

    Numbers are exact rationals ([Q]); Pyomo expressions are a small syntax
    with an evaluator that fails on division by zero, as Python does.  Where
    Python decides a branch by comparing floats, the comparison is made in
    IEEE-754 binary64, as Python makes it. *)

From Stdlib Require Import QArith Qabs.
From Stdlib Require SpecFloat.
From stdpp Require Import gmap strings list.

Open Scope Q_scope.

(** ** Python values shared by all modules *)

(** The exceptions that the embedded code can raise or let through. *)
Inductive exn : Type :=
  | ZeroDivisionError
  | IndexError
  | KeyError
  | UnboundLocalError (name : string)
  | RuntimeError (msg : string)
  | ValueError
  | InitializationError (msg : string)
  | FrameworkError (what : string).

Inductive result (A : Type) : Type :=
  | Ok (a : A)
  | Raise (e : exn).
Arguments Ok {A} a.
Arguments Raise {A} e.

#[global] Instance result_ret : MRet result := λ A a, Ok a.
#[global] Instance result_bind : MBind result :=
  λ A B f r, match r with Ok a => f a | Raise e => Raise e end.

Definition is_raise {A} (r : result A) : bool :=
  match r with Ok _ => false | Raise _ => true end.

(** [xs[i]] on a Python list. *)
Definition py_index {A} (xs : list A) (i : nat) : result A :=
  match nth_error xs i with
  | Some x => Ok x
  | None => Raise IndexError
  end.

(** [[f(t) for t in range(n)]], stopping at the first exception. *)
Fixpoint py_for {A} (f : nat → result A) (ts : list nat) : result (list A) :=
  match ts with
  | [] => Ok []
  | t :: ts' => x ← f t; xs ← py_for f ts'; Ok (x :: xs)
  end.

(** [s.endswith(suffix)], read from the last character backwards. *)
Fixpoint starts_with (p s : list Ascii.ascii) : bool :=
  match p, s with
  | [], _ => true
  | a :: p', b :: s' => Ascii.eqb a b && starts_with p' s'
  | _ :: _, [] => false
  end.

Definition endswith (s suffix : string) : bool :=
  starts_with (rev (String.list_ascii_of_string suffix))
              (rev (String.list_ascii_of_string s)).

(** [os.path.join(a, b)] for a relative [b]. *)
Definition os_path_join (a b : string) : string :=
  if String.eqb a EmptyString then b
  else if endswith a "/" then a +:+ b
  else a +:+ "/" +:+ b.

(** The format a file name announces by its extension. *)
Inductive file_format : Type := CSV | YAML | JSON | OtherFormat.

Definition format_of (path : string) : file_format :=
  if endswith path ".csv" then CSV
  else if endswith path ".yaml" || endswith path ".yml" then YAML
  else if endswith path ".json" then JSON
  else OtherFormat.

(** ** Pyomo expressions

    Binary operators associate as Python parses them; [value] is
    [pyomo.environ.value] at a point that gives every variable a number. *)
Inductive expr (V : Type) : Type :=
  | Num (q : Q)
  | Var (v : V)
  | Add (a b : expr V)
  | Sub (a b : expr V)
  | Mul (a b : expr V)
  | Div (a b : expr V).
Arguments Num {V} q.
Arguments Var {V} v.
Arguments Add {V} a b.
Arguments Sub {V} a b.
Arguments Mul {V} a b.
Arguments Div {V} a b.

Definition Qis_zero (q : Q) : bool := Qeq_bool q 0.

Fixpoint value {V} (rho : V → Q) (e : expr V) : option Q :=
  match e with
  | Num q => Some q
  | Var v => Some (rho v)
  | Add a b => x ← value rho a; y ← value rho b; Some (x + y)
  | Sub a b => x ← value rho a; y ← value rho b; Some (x - y)
  | Mul a b => x ← value rho a; y ← value rho b; Some (x * y)
  | Div a b =>
      x ← value rho a; y ← value rho b;
      if Qis_zero y then None else Some (x / y)
  end.

(** Python's [sum(xs)]: [0 + xs[0] + xs[1] + ...], left to right. *)
Definition py_sum {V} (xs : list (expr V)) : expr V :=
  fold_left Add xs (Num 0).

(** An equality constraint [lhs == rhs] holds at a point when both sides
    have a value and the values agree. *)
Definition holds {V} (rho : V → Q) (c : expr V * expr V) : Prop :=
  ∃ x y, value rho c.1 = Some x ∧ value rho c.2 = Some y ∧ x == y.

(** ** Scripts as programs over the framework

    A script is a sequence of calls into Pyomo/IDAES/WaterTAP with prints
    in between.  What such a call answers is not decided in this
    repository, so a program runs against an [oracle] that says, for the
    n-th call, whether it returns (and, for a solve, whether the result is
    optimal) or raises.  Running a program gives the events in order and
    the value or the exception it ends with. *)

Inductive metric : Type := m_LCOW | m_LCOT | m_LCOH.

Inductive kind : Type :=
  | Assemble      (* flowsheet construction: blocks, units, arcs, costing *)
  | Optimize      (* an objective added to the model: [Objective(...)] *)
  | Configure     (* operating conditions, scaling, fix and unfix *)
  | Initialize    (* initialization routines *)
  | Solve         (* [solver.solve] *)
  | Diagnose      (* the framework's reporting helpers *)
  | Plot.

Inductive event : Type :=
  | Called (k : kind) (callee : string)
  | Printed (text : string)
  | Reported (m : metric).

Record SolverResults : Type := { optimal : bool }.

Definition check_optimal_termination (r : SolverResults) : bool := optimal r.

Inductive response : Type :=
  | Returns (r : SolverResults)
  | Throws (e : exn).

Definition oracle : Type := nat → response.

Record outcome (A : Type) : Type := {
  trace : list event;
  calls : nat;
  res : result A
}.
Arguments trace {A} o.
Arguments calls {A} o.
Arguments res {A} o.

Definition M (A : Type) : Type := oracle → nat → outcome A.

Definition ret {A} (a : A) : M A :=
  λ _ n, {| trace := []; calls := n; res := Ok a |}.

Definition raise {A} (e : exn) : M A :=
  λ _ n, {| trace := []; calls := n; res := Raise e |}.

Definition bind {A B} (c : M A) (f : A → M B) : M B :=
  λ o n,
    let r1 := c o n in
    match res r1 with
    | Ok a =>
        let r2 := f a o (calls r1) in
        {| trace := trace r1 ++ trace r2; calls := calls r2; res := res r2 |}
    | Raise e => {| trace := trace r1; calls := calls r1; res := Raise e |}
    end.

Declare Scope prog_scope.
Delimit Scope prog_scope with prog.
Notation "x <- c ;; k" := (bind c (λ x, k))
  (at level 100, c at next level, right associativity) : prog_scope.
Notation "c ;; k" := (bind c (λ _, k))
  (at level 100, right associativity) : prog_scope.

(** An event that cannot fail: a print, a display, an attribute access. *)
Definition emit (e : event) : M unit :=
  λ _ n, {| trace := [e]; calls := n; res := Ok tt |}.

(** A call whose outcome the framework decides. *)
Definition call (k : kind) (callee : string) : M SolverResults :=
  λ o n,
    {| trace := [Called k callee];
       calls := S n;
       res := match o n with Returns r => Ok r | Throws e => Raise e end |}.

(** A pure computation of the repository inside a script. *)
Definition lift {A} (r : result A) : M A :=
  match r with Ok a => ret a | Raise e => raise e end.

(** [for x in xs: body(x)]. *)
Fixpoint for_each {A} (xs : list A) (body : A → M unit) : M unit :=
  match xs with
  | [] => ret tt
  | x :: xs' => bind (body x) (λ _, for_each xs' body)
  end.

(** [try: body / except ValueError: handler]. *)
Definition try_except_ValueError {A} (body handler : M A) : M A :=
  λ o n,
    let r1 := body o n in
    match res r1 with
    | Raise ValueError =>
        let r2 := handler o (calls r1) in
        {| trace := trace r1 ++ trace r2; calls := calls r2; res := res r2 |}
    | _ => r1
    end.

(** pyomo's [assert_optimal_termination]. *)
Definition assert_optimal_termination (r : SolverResults) : M unit :=
  if check_optimal_termination r then ret tt
  else raise (RuntimeError "Solver failed to terminate with an optimal solution").

Definition range (n : nat) : list nat := seq 0 n.

(** A framework call used for its effect only. *)
Definition invoke (k : kind) (callee : string) : M unit :=
  bind (call k callee) (λ _, ret tt).

(** *** The order a script has to keep

    A script starts with nothing built.  A flowsheet has to be assembled
    before the solver is invoked; a levelized cost may be reported only
    once the whole model has been solved, and not after the flowsheet has
    been assembled further without a solve of the whole model in between.
    The scripts bind the whole model to [m] or [mp]; a solve of anything
    else is the solve of a sub-block, which leaves the whole model
    unsolved.  Only flowsheet construction counts as assembly: an objective
    added to a solved model ([Optimize], as [optimize_rpt3] does before the
    [__main__] block of KBHDP_RPT_3 displays the LCOT) or a variable fixed
    or unfixed ([Configure]) leaves the phase as it is. *)
Inductive phase : Type := NotBuilt | Built | Solved.






(** The same order read off the trace directly: every report has a solve
    of the whole model before it with nothing assembled in between, and
    every solve an assembly call before it. *)
Definition is_solve (e : event) : bool :=
  match e with Called Solve _ => true | _ => false end.
Definition is_report (e : event) : bool :=
  match e with Reported _ => true | _ => false end.







(** The framework never raises and answers every solve with [r]. *)
Definition always (r : SolverResults) : oracle := λ _, Returns r.

(** ** seto/analysis/multiperiod/PV_RO_battery_mutiperiod_class.py *)
Module PV_RO_battery_mutiperiod_class.

(** The variables of one time block that the module names
    ([fs.battery.state_of_charge[0]], [fs.pv.size], [grid_cost], ...). *)
Inductive flowsheet_var : Type :=
  | battery_state_of_charge (t : Z)
  | battery_initial_state_of_charge
  | battery_energy_throughput (t : Z)
  | battery_initial_energy_throughput
  | battery_nameplate_power
  | battery_nameplate_energy
  | pv_size
  | grid_cost.

#[global] Instance flowsheet_var_eq_dec : EqDecision flowsheet_var.
Proof. solve_decision. Defined.

(** A variable of the multi-period model: time block and name. *)
Definition block_var : Type := nat * flowsheet_var.

Definition get_pv_ro_variable_pairs (t1 t2 : nat) : list (block_var * block_var) :=
  [ ((t1, battery_state_of_charge 0), (t2, battery_initial_state_of_charge));
    ((t1, battery_energy_throughput 0), (t2, battery_initial_energy_throughput));
    ((t1, battery_nameplate_power), (t2, battery_nameplate_power));
    ((t1, battery_nameplate_energy), (t2, battery_nameplate_energy));
    ((t1, pv_size), (t2, pv_size)) ].

Record flowsheet_options : Type := {
  opt_GHI : Q;
  opt_elec_price : Q;
  opt_ro_capacity : Q;
  opt_ro_elec_req : Q
}.

(** What the script holds after [create_multiperiod_pv_battery_model]:
    IDAES' [MultiPeriodModel] with its blocks' options, the equality
    constraints that link consecutive blocks, the fixed variables, and
    the expressions the script adds. *)
Record MultiPeriodModel : Type := {
  n_time_points : nat;
  model_data_kwargs : list flowsheet_options;
  link_constraints : list (block_var * block_var);
  fixed : list (block_var * Q);
  battery_cost : expr block_var;
  pv_cost : expr block_var;
  total_cost : expr block_var;
  LCOW : expr block_var;
  obj : expr block_var
}.

(** IDAES' [build_multi_period_model] calls [linking_variable_func] on
    every pair of consecutive blocks and turns each returned pair into an
    equality constraint (no periodic pairs are requested here). *)
Definition build_link_constraints
    (linking_variable_func : nat → nat → list (block_var * block_var))
    (n : nat) : list (block_var * block_var) :=
  flat_map (λ t, linking_variable_func t (S t)) (seq 0 (n - 1)).

Definition default_GHI : list Q :=
  [0; 0; 0; 0; 0; 23; 170; 386; 596; 784; 939; 1031; 1062; 1031; 938; 790;
   599; 383; 166; 31; 0; 0; 0; 0].
Definition default_elec_price : list Q := repeat 0.07 24.

(** The dictionary comprehension over [range(n_time_points)]. *)
Definition make_flowsheet_options
    (n_time_points : nat) (ro_capacity ro_elec_req : Q)
    (GHI elec_price : list Q) : result (list flowsheet_options) :=
  py_for (λ t, g ← py_index GHI t; p ← py_index elec_price t;
               Ok {| opt_GHI := g; opt_elec_price := p;
                     opt_ro_capacity := ro_capacity;
                     opt_ro_elec_req := ro_elec_req |})
         (seq 0 n_time_points).

Definition create_multiperiod_pv_battery_model
    (n_time_points : nat) (ro_capacity ro_elec_req : Q)
    (cost_battery_power cost_battery_energy : Q)
    (GHI elec_price : list Q) : result MultiPeriodModel :=
  flowsheet_options ←
    make_flowsheet_options n_time_points ro_capacity ro_elec_req GHI elec_price;
  (* mp.blocks[0] needs a first block *)
  match n_time_points with
  | O => Raise KeyError
  | S _ =>
      let battery_cost :=
        Mul (Num 0.096)
            (Add (Mul (Num cost_battery_power) (Var (0%nat, battery_nameplate_power)))
                 (Mul (Num cost_battery_energy) (Var (0%nat, battery_nameplate_energy)))) in
      let pv_cost :=
        Add (Mul (Mul (Num 1040) (Var (0%nat, pv_size))) (Num 0.096))
            (Mul (Num 9) (Var (0%nat, pv_size))) in
      let total_cost :=
        Add (Mul (Div (Div (Add battery_cost pv_cost) (Num 365)) (Num 24))
                 (Num (inject_Z (Z.of_nat n_time_points))))
            (py_sum (map (λ i, Var (i, grid_cost)) (seq 0 n_time_points))) in
      let LCOW :=
        Add (Mul (Div (Div total_cost (Num ro_capacity)) (Num 24))
                 (Num (inject_Z (Z.of_nat n_time_points))))
            (Num 0.45) in
      Ok {| n_time_points := n_time_points;
            model_data_kwargs := flowsheet_options;
            link_constraints :=
              build_link_constraints get_pv_ro_variable_pairs n_time_points;
            fixed := [ ((0%nat, battery_initial_state_of_charge), 0);
                       ((0%nat, battery_initial_energy_throughput), 0) ];
            battery_cost := battery_cost;
            pv_cost := pv_cost;
            total_cost := total_cost;
            LCOW := LCOW;
            obj := LCOW |}
  end.

(** The call with the defaults of the signature, for [n] time blocks. *)
Definition create_default (n : nat) : result MultiPeriodModel :=
  create_multiperiod_pv_battery_model n 6000 944.3 75 50
    default_GHI default_elec_price.

(** Stated from the specification's words: the water produced by a plant
    of [ro_capacity] m3/day over [n_time_points] hours, and the levelized
    cost of water as cost per produced volume plus the RO share 0.45. *)
Definition water_produced (ro_capacity : Q) (n_time_points : nat) : Q :=
  ro_capacity / 24 * inject_Z (Z.of_nat n_time_points).

Definition levelized_cost_of_water
    (total_cost ro_capacity : Q) (n_time_points : nat) : Q :=
  total_cost / water_produced ro_capacity n_time_points + 0.45.

(** A point of the model space used in the examples: every block buys
    [g] from the grid and nothing is installed. *)
Definition grid_only (g : Q) : block_var → Q :=
  λ v, match v.2 with grid_cost => g | _ => 0 end.

(** A point [rho] satisfies the links and the fixings of a model. *)
Definition feasible (mp : MultiPeriodModel) (rho : block_var → Q) : Prop :=
  (∀ p, p ∈ link_constraints mp → rho p.1 == rho p.2) ∧
  (∀ f, f ∈ fixed mp → rho f.1 == f.2).

(** The same function as the script runs it: the framework calls around
    the structure computed above. *)
Definition create_multiperiod_pv_battery_model_run
    (n_time_points : nat) (ro_capacity ro_elec_req : Q)
    (cost_battery_power cost_battery_energy : Q)
    (GHI elec_price : list Q) : M MultiPeriodModel :=
  (invoke Assemble "MultiPeriodModel" ;;
   lift (make_flowsheet_options n_time_points ro_capacity ro_elec_req GHI elec_price) ;;
   invoke Assemble "mp.build_multi_period_model" ;;
   mp <- lift (create_multiperiod_pv_battery_model n_time_points ro_capacity
                 ro_elec_req cost_battery_power cost_battery_energy GHI elec_price) ;;
   emit (Called Configure "battery.initial_state_of_charge.fix") ;;
   emit (Called Configure "battery.initial_energy_throughput.fix") ;;
   invoke Assemble "Expression battery_cost" ;;
   invoke Assemble "Expression pv_cost" ;;
   invoke Assemble "Expression total_cost" ;;
   invoke Assemble "Expression LCOW" ;;
   invoke Optimize "Objective" ;;
   ret mp)%prog.

(** The [__main__] block. *)
Definition main : M unit :=
  (mp <- create_multiperiod_pv_battery_model_run 24 6000 944.3 75 50
           default_GHI default_elec_price ;;
   results <- call Solve "mp" ;;
   for_each (range 24) (λ i,
     emit (Printed "battery status at hour") ;;
     emit (Printed "pv gen(kW)")) ;;
   emit (Printed "pv size") ;;
   emit (Printed "battery power") ;;
   emit (Printed "battery energy") ;;
   emit (Reported m_LCOW))%prog.

End PV_RO_battery_mutiperiod_class.

(** ** seto/analysis/multiperiod/PV_RO_battery_demo.py *)
Module PV_RO_battery_demo.
Import PV_RO_battery_mutiperiod_class.

(** The module is a script: everything runs at import. *)
Definition script : M unit :=
  (mp <- create_multiperiod_pv_battery_model_run 24 6000 944.3 150 100
           default_GHI (repeat 0.14 24) ;;
   emit (Called Configure "get_solver") ;;
   results <- call Solve "mp" ;;
   for_each (range 24) (λ i,
     emit (Printed "battery status at hour") ;;
     emit (Printed "pv gen(kW)")) ;;
   emit (Printed "pv size") ;;
   emit (Printed "battery power") ;;
   emit (Printed "battery energy") ;;
   emit (Reported m_LCOW) ;;
   (* diagrams *)
   invoke Plot "plt.clf" ;;
   invoke Plot "plt.subplots" ;;
   invoke Plot "ax1.plot battery_state" ;;
   invoke Plot "ax1.plot pv_gen" ;;
   invoke Plot "ax1.plot pv_curtail" ;;
   invoke Plot "ax1.set_xlabel" ;;
   invoke Plot "ax1.set_ylabel" ;;
   invoke Plot "ax1.legend" ;;
   invoke Plot "ax2.set_xlabel" ;;
   invoke Plot "ax2.set_ylabel" ;;
   invoke Plot "ax2.stackplot" ;;
   invoke Plot "ax2.legend")%prog.

End PV_RO_battery_demo.

(** ** idaes.core.util.scaling, as the repository uses it

    The scaling suffix of a model maps component names to factors.
    [get_scaling_factor] answers [default] for a component without a
    factor; [set_scaling_factor] overwrites. *)
Module iscale.

Definition get_scaling_factor
    (sf : gmap string Q) (c : string) (default : option Q) : option Q :=
  match sf !! c with
  | Some v => Some v
  | None => default
  end.

Definition set_scaling_factor (sf : gmap string Q) (c : string) (v : Q) : gmap string Q :=
  <[c := v]> sf.

End iscale.

(** A routine leaves scaling to the framework when it assigns no factor
    of its own, whatever the suffix holds when it is called. *)
Definition assigns_no_scaling_factor (f : gmap string Q → gmap string Q) : Prop :=
  ∀ sf, f sf = sf.

(** A wrapper leaves initialization to the framework when it returns
    whenever the framework's routine, called first at [n], does. *)
Definition adds_no_initialization_logic (init : M unit) : Prop :=
  ∀ o n r, o n = Returns r → res (init o n) = Ok tt.

(** ** Python floats

    A Python float is an IEEE-754 binary64 number, and Python's arithmetic
    on floats rounds to nearest, ties to even.  [of_Q q] is the double
    nearest to [q]: the double itself when [q] is the value of a double,
    and the double that Python reads for a literal otherwise. *)
Module binary64.

Definition prec : Z := 53.
Definition emax : Z := 1024.

Definition of_Q (q : Q) : SpecFloat.spec_float :=
  match Qnum q with
  | Z0 => SpecFloat.S754_zero false
  | Zpos n =>
      SpecFloat.SFdiv prec emax (SpecFloat.S754_finite false n 0)
                      (SpecFloat.S754_finite false (Qden q) 0)
  | Zneg n =>
      SpecFloat.SFdiv prec emax (SpecFloat.S754_finite true n 0)
                      (SpecFloat.S754_finite false (Qden q) 0)
  end.

Definition sub : SpecFloat.spec_float → SpecFloat.spec_float → SpecFloat.spec_float :=
  SpecFloat.SFsub prec emax.
Definition div : SpecFloat.spec_float → SpecFloat.spec_float → SpecFloat.spec_float :=
  SpecFloat.SFdiv prec emax.
(** [x > y]; false when one of them is not a number. *)
Definition gtb (x y : SpecFloat.spec_float) : bool := SpecFloat.SFltb y x.

End binary64.

(** ** seto/analysis/multiperiod/ltmed_vagmd_semibatch/MED_VAGMD_flowsheet.py *)
Module MED_VAGMD_flowsheet.

(** The [inputs] dictionary of [add_vagmd], one field per key it reads. *)
Record vagmd_inputs : Type := {
  feed_flow_rate : Q;
  evap_inlet_temp : Q;
  cond_inlet_temp : Q;
  feed_temp : Q;
  feed_salinity : Q;
  recovery_ratio : Q;
  module_type : string;
  cooling_system_type : string;
  cooling_inlet_temp : Q
}.

(** The variables of the VAGMD unit that the flowsheet functions touch. *)
Inductive vagmd_var : Type :=
  | evaporator_in_temperature
  | condenser_in_temperature
  | cooling_in_temperature
  | feed_flow_vol_phase.

#[global] Instance vagmd_var_eq_dec : EqDecision vagmd_var.
Proof. solve_decision. Defined.

(** [fs.vagmd] as [add_vagmd] leaves it: the keyword arguments given to
    [VAGMDSurrogateBase] and the variables fixed afterwards, in order. *)
Record VAGMDSurrogateBase : Type := {
  config_module_type : string;
  config_high_brine_salinity : bool;
  config_cooling_system_type : string;
  fixed : list (vagmd_var * Q)
}.

(** The five locals that the high-salinity branch may reassign. *)
Record vagmd_locals : Type := {
  l_cooling_system_type : string;
  l_feed_flow_rate : Q;
  l_evap_inlet_temp : Q;
  l_cond_inlet_temp : Q;
  l_high_brine_salinity : bool
}.

(** [final_brine_salinity > 175.3] as Python evaluates it, on the floats
    whose values are [feed_salinity] and [recovery_ratio]: the subtraction,
    the division and the literal 175.3 are each rounded to binary64. *)
Definition final_brine_salinity_above_threshold (feed_salinity recovery_ratio : Q) : bool :=
  let final_brine_salinity :=
    binary64.div (binary64.of_Q feed_salinity)
                 (binary64.sub (binary64.of_Q 1) (binary64.of_Q recovery_ratio)) in
  binary64.gtb final_brine_salinity (binary64.of_Q 175.3).

(** The numbers of [inputs] are the values of the Python numbers given.
    [1 - recovery_ratio] is zero in binary64 exactly when it is zero, so the
    division fails exactly for a recovery ratio of 1; the comparison with
    175.3 is the one Python makes. *)
Definition add_vagmd_locals (inputs : vagmd_inputs) : result vagmd_locals :=
  if Qis_zero (1 - recovery_ratio inputs) then Raise ZeroDivisionError
  else
    if String.eqb (module_type inputs) "AS7C1.5L"
       && final_brine_salinity_above_threshold (feed_salinity inputs)
                                               (recovery_ratio inputs)
    then Ok {| l_cooling_system_type := "closed";
               l_feed_flow_rate := 1100;
               l_evap_inlet_temp := 80;
               l_cond_inlet_temp := 25;
               l_high_brine_salinity := true |}
    else Ok {| l_cooling_system_type := cooling_system_type inputs;
               l_feed_flow_rate := feed_flow_rate inputs;
               l_evap_inlet_temp := evap_inlet_temp inputs;
               l_cond_inlet_temp := cond_inlet_temp inputs;
               l_high_brine_salinity := false |}.

Definition add_vagmd (inputs : vagmd_inputs) : result VAGMDSurrogateBase :=
  l ← add_vagmd_locals inputs;
  Ok {| config_module_type := module_type inputs;
        config_high_brine_salinity := l_high_brine_salinity l;
        config_cooling_system_type := l_cooling_system_type l;
        fixed :=
          (evaporator_in_temperature, l_evap_inlet_temp l + 273.15) ::
          (if String.eqb (l_cooling_system_type l) "closed"
           then [ (condenser_in_temperature, l_cond_inlet_temp l + 273.15) ]
           else [ (cooling_in_temperature, cooling_inlet_temp inputs + 273.15) ]) |}.

(** What the claim about [add_vagmd] asks of the unit in the high-salinity
    case, stated from its words: besides the configuration and the two
    temperatures, the feed flow rate of the unit is set to 1100 L/h. *)
Definition constructed_with_feed_flow (u : VAGMDSurrogateBase) (q : Q) : Prop :=
  ∃ v, (feed_flow_vol_phase, v) ∈ fixed u ∧ v == q.

(** The inputs [build_med_md_flowsheet] passes with its defaults. *)
Definition default_vagmd_inputs : vagmd_inputs :=
  {| feed_flow_rate := 600; evap_inlet_temp := 80; cond_inlet_temp := 25;
     feed_temp := 25; feed_salinity := 30 / 0.5; recovery_ratio := 0.5;
     module_type := "AS26C7.2L"; cooling_system_type := "closed";
     cooling_inlet_temp := 25 |}.

(** A call that takes the high-salinity branch. *)
Definition high_salinity_inputs : vagmd_inputs :=
  {| feed_flow_rate := 600; evap_inlet_temp := 70; cond_inlet_temp := 20;
     feed_temp := 25; feed_salinity := 100; recovery_ratio := 0.5;
     module_type := "AS7C1.5L"; cooling_system_type := "open";
     cooling_inlet_temp := 22 |}.

(** Two calls at the threshold, for module AS7C1.5L with an open cooling
    circuit.  The first has the doubles nearest to 35.06 and 0.8: their
    quotient by [1 - 0.8] rounds to 175.30000000000004.  The second has the
    double nearest to 87.65 and 0.5: the quotient is the double nearest to
    175.3 itself, which is not above it. *)
Definition just_above_threshold_inputs : vagmd_inputs :=
  {| feed_flow_rate := 600; evap_inlet_temp := 70; cond_inlet_temp := 20;
     feed_temp := 25;
     feed_salinity := 616782042717225 # 17592186044416;
     recovery_ratio := 3602879701896397 # 4503599627370496;
     module_type := "AS7C1.5L"; cooling_system_type := "open";
     cooling_inlet_temp := 22 |}.

Definition at_threshold_inputs : vagmd_inputs :=
  {| feed_flow_rate := 600; evap_inlet_temp := 70; cond_inlet_temp := 20;
     feed_temp := 25;
     feed_salinity := 3083910213586125 # 35184372088832;
     recovery_ratio := 0.5;
     module_type := "AS7C1.5L"; cooling_system_type := "open";
     cooling_inlet_temp := 22 |}.

(** The scaling block of [fix_dof_and_initialize] (the two [if]s that
    follow the call of the framework's [calculate_scaling_factors(m)]). *)
Definition flowsheet_scaling (sf : gmap string Q) : gmap string Q :=
  let sf :=
    match iscale.get_scaling_factor sf "fs.volume_in_tank" None with
    | None =>
        iscale.set_scaling_factor
          (iscale.set_scaling_factor sf "fs.volume_in_tank" 100)
          "fs.volume_in_tank_previous" 100
    | Some _ => sf
    end in
  match iscale.get_scaling_factor sf "fs.dt" None with
  | None => iscale.set_scaling_factor sf "fs.dt" 0.1
  | Some _ => sf
  end.

(** The scaling statements that open [fix_dof_and_initialize]: the
    framework's [calculate_scaling_factors(m)], which may assign factors
    to any component of the model, and then the block above. *)
Definition fix_dof_scaling
    (calculate_scaling_factors : gmap string Q → gmap string Q)
    (sf : gmap string Q) : gmap string Q :=
  flowsheet_scaling (calculate_scaling_factors sf).

End MED_VAGMD_flowsheet.

(** ** reflo/solar_models/zero_order/flat_plate_pysam.py *)
Module flat_plate_pysam.

(** The variables the two constraints of [build] relate; [heat] and
    [electricity] come from the solar base class. *)
Inductive fp_var : Type :=
  | heat_load
  | heat_annual
  | electricity_annual
  | heat
  | electricity.

(** [pyunits.convert(1 * pyunits.year, to_units=pyunits.hour)]: the unit
    registry's year is 365.25 days. *)
Definition hours_per_year : Q := 365.25 * 24.

Definition heat_constraint : expr fp_var * expr fp_var :=
  (Var heat_annual, Mul (Var heat) (Num hours_per_year)).

Definition electricity_constraint : expr fp_var * expr fp_var :=
  (Var electricity_annual, Mul (Var electricity) (Num hours_per_year)).

(** The constraints [build] adds to the block. *)
Definition build_constraints : list (expr fp_var * expr fp_var) :=
  [ heat_constraint; electricity_constraint ].

(** A solved model is a point at which every constraint holds. *)
Definition feasible (rho : fp_var → Q) : Prop :=
  Forall (holds rho) build_constraints.

(** One step of [calculate_scaling_factors]: give [c] the default factor 1
    when it has none. *)
Definition default_scaling (sf : gmap string Q) (c : string) : gmap string Q :=
  match iscale.get_scaling_factor sf c None with
  | None =>
      match iscale.get_scaling_factor sf c (Some 1) with
      | Some v => iscale.set_scaling_factor sf c v
      | None => sf
      end
  | Some _ => sf
  end.

Definition scaled_components : list string :=
  [ "hours_storage"; "heat_load"; "temperature_hot"; "heat"; "electricity" ].

Definition calculate_scaling_factors (sf : gmap string Q) : gmap string Q :=
  let sf := default_scaling sf "hours_storage" in
  let sf := default_scaling sf "heat_load" in
  let sf := default_scaling sf "temperature_hot" in
  let sf := default_scaling sf "heat" in
  default_scaling sf "electricity".

(** A point of the model used in the examples. *)
Definition sample_point : fp_var → Q :=
  λ v, match v with
       | heat_load => 1
       | heat => 2
       | heat_annual => 17532
       | electricity => 3
       | electricity_annual => 26298
       end.

(** [initialize(self, outlvl, solver=None, optarg=None)].  [opt] is bound
    only in the branch [solver is None]; Python raises [UnboundLocalError]
    when [opt.solve] is reached without it. *)
Definition initialize (name : string) (solver : option string) : M unit :=
  (emit (Called Diagnose "idaeslog.getInitLogger") ;;
   opt <- match solver with
          | None => (emit (Called Configure "get_solver") ;; ret (Some "opt"))
          | Some _ => ret None
          end ;;
   match opt with
   | None => raise (UnboundLocalError "opt")
   | Some _ =>
       r <- call Solve name ;;
       emit (Called Diagnose "init_log.info_high") ;;
       if negb (check_optimal_termination r)
       then raise (InitializationError ("Unit model " +:+ name +:+ " failed to initialize"))
       else emit (Called Diagnose "init_log.info")
   end)%prog.

End flat_plate_pysam.

(** ** reflo/analysis/case_studies/KBHDP/KBHDP_RPT_3.py *)
Module KBHDP_RPT_3.
Local Open Scope prog_scope.

(** Module-level paths; [reflo_dir] is three levels above the file and
    [location] is the directory of the file. *)
Definition case_study_yaml (reflo_dir : string) : string :=
  reflo_dir +:+ "/data/technoeconomic/kbhdp_case_study.yaml".
Definition weather_file (location : string) : string :=
  os_path_join location "el_paso_texas-KBHDP-weather.csv".
Definition param_file (location : string) : string :=
  os_path_join location "swh-kbhdp.json".

Definition propagate_state (arc : string) : M unit :=
  invoke Initialize ("_prop_state " +:+ arc).

Definition infeasible_msg : string :=
  "The current configuration is infeasible. Please adjust the decision variables.".

Definition solve (m : string) (solver : option string)
    (tee raise_on_failure : bool) : M SolverResults :=
  match solver with
  | None => emit (Called Configure "get_solver")
  | Some _ => ret tt
  end ;;
  emit (Called Configure "solver.options[max_iter] = 1000") ;;
  emit (Called Configure "solver.options[halt_on_ampl_error] = yes") ;;
  emit (Printed ("--------- SOLVING " +:+ m +:+ " ---------")) ;;
  results <- call Solve m ;;
  if check_optimal_termination results then
    emit (Printed "--------- OPTIMAL SOLVE!!! ---------") ;;
    ret results
  else if raise_on_failure then
    emit (Called Diagnose "print_infeasible_bounds") ;;
    emit (Called Diagnose "print_close_to_bounds") ;;
    raise (RuntimeError infeasible_msg)
  else
    emit (Printed infeasible_msg) ;;
    ret results.

Definition build_system : M unit :=
  invoke Assemble "ConcreteModel" ;;
  invoke Assemble "FlowsheetBlock fs" ;;
  invoke Assemble "Block fs.treatment" ;;
  invoke Assemble "Block fs.energy" ;;
  invoke Assemble "TreatmentCosting" ;;
  invoke Assemble "EnergyCosting" ;;
  invoke Assemble "SeawaterParameterBlock" ;;
  invoke Assemble "Feed" ;;
  invoke Assemble "Product" ;;
  invoke Assemble "FlowsheetBlock fs.treatment.md" ;;
  invoke Assemble "build_md" ;;
  invoke Assemble "FlowsheetBlock fs.treatment.dwi" ;;
  invoke Assemble "build_DWI" ;;
  invoke Assemble "build_fpc".

Definition add_connections : M unit :=
  invoke Assemble "Arc feed_to_md" ;;
  invoke Assemble "Arc md_to_product" ;;
  invoke Assemble "Arc md_to_dwi" ;;
  invoke Assemble "network.expand_arcs".

Definition add_costing : M unit :=
  invoke Assemble "add_fpc_costing" ;;
  invoke Assemble "md.unit.add_costing_module" ;;
  invoke Assemble "add_DWI_costing" ;;
  invoke Assemble "treatment_costing_block.cost_process" ;;
  invoke Assemble "energy_costing_block.cost_process" ;;
  invoke Assemble "REFLOSystemCosting" ;;
  invoke Assemble "fs.costing.cost_process" ;;
  emit (Printed "--------- INITIALIZING SYSTEM COSTING ---------") ;;
  invoke Initialize "treatment_costing_block.initialize" ;;
  invoke Initialize "energy_costing_block.initialize" ;;
  invoke Initialize "fs.costing.initialize" ;;
  invoke Assemble "fs.costing.add_annual_water_production" ;;
  invoke Assemble "fs.costing.add_LCOT" ;;
  invoke Assemble "fs.costing.add_LCOH".

Definition add_constraints : M unit :=
  invoke Assemble "Var fs.water_recovery" ;;
  invoke Assemble "Constraint fs.eq_water_recovery".

Definition apply_scaling : M unit :=
  invoke Configure "set_default_scaling flow_mass_phase_comp Liq H2O 0.1" ;;
  invoke Configure "set_default_scaling flow_mass_phase_comp Liq TDS 1" ;;
  invoke Configure "set_scaling_factor FPC.heat_annual_scaled 1e-3" ;;
  invoke Configure "set_scaling_factor FPC.electricity_annual_scaled 1e-3" ;;
  invoke Configure "calculate_scaling_factors".

Definition set_inlet_conditions : M unit :=
  emit (Printed "=======> SETTING FEED CONDITIONS <=======") ;;
  invoke Configure "feed.properties.calculate_state".

Definition set_operating_conditions : M unit :=
  set_inlet_conditions ;;
  invoke Configure "set_fpc_op_conditions".

Definition init_system (solver : option string) : M unit :=
  match solver with
  | None => emit (Called Configure "get_solver")
  | Some _ => ret tt
  end ;;
  emit (Printed "-------------------- INITIALIZING SYSTEM --------------------") ;;
  emit (Printed "System Degrees of Freedom") ;;
  invoke Initialize "treatment.feed.initialize" ;;
  invoke Initialize "init_md" ;;
  propagate_state "md_to_product" ;;
  invoke Initialize "treatment.product.initialize" ;;
  propagate_state "md_to_dwi" ;;
  invoke Initialize "init_DWI" ;;
  invoke Initialize "init_fpc".

Definition optimize_rpt3 (grid_frac_heat heat_price : option Q)
    (objective : string) : M unit :=
  emit (Printed "DOF before optimization") ;;
  (if String.eqb objective "LCOW"
   then invoke Optimize "Objective fs.lcow_objective" else ret tt) ;;
  (if String.eqb objective "LCOT"
   then invoke Optimize "Objective fs.lcot_objective" else ret tt) ;;
  match grid_frac_heat with
  | Some _ =>
      emit (Called Configure "FPC.heat_load.unfix") ;;
      emit (Called Configure "costing.frac_heat_from_grid.fix")
  | None => ret tt
  end ;;
  match heat_price with
  | Some _ =>
      emit (Called Configure "FPC.heat_load.unfix") ;;
      emit (Called Configure "FPC.hours_storage.unfix") ;;
      emit (Called Configure "costing.frac_heat_from_grid.unfix") ;;
      emit (Called Configure "costing.heat_cost_buy.fix")
  | None => ret tt
  end ;;
  emit (Printed "Degrees of Feedom") ;;
  invoke Diagnose "assert degrees_of_freedom(m) >= 0".

Definition build_sweep (grid_frac_heat heat_price : option Q)
    (objective : string) : M unit :=
  build_system ;;
  add_connections ;;
  set_operating_conditions ;;
  apply_scaling ;;
  init_system None ;;
  emit (Called Configure "FPC.heat_load.unfix") ;;
  solve "fs.treatment.md" None true true ;;
  solve "m" None true false ;;
  emit (Called Configure "FPC.heat_load.fix") ;;
  solve "m" None false true ;;
  add_costing ;;
  solve "m" None false true ;;
  optimize_rpt3 grid_frac_heat heat_price objective.

Definition optimize : M unit :=
  emit (Called Configure "costing.frac_heat_from_grid.unfix") ;;
  invoke Optimize "Objective fs.obj".

Definition report_costing : M unit :=
  emit (Printed "-------------------- System Costing Report --------------------") ;;
  emit (Reported m_LCOT) ;;
  emit (Printed "Capital Cost") ;;
  emit (Printed "Total Operating Cost") ;;
  emit (Printed "Agg Fixed Operating Cost") ;;
  emit (Printed "Agg Variable Operating Cost") ;;
  emit (Printed "Heat flow") ;;
  emit (Printed "Heat purchased") ;;
  emit (Printed "Heat sold") ;;
  emit (Printed "Elec Flow") ;;
  emit (Printed "Elec purchased") ;;
  emit (Printed "Elec sold").

Definition main : M unit :=
  build_system ;;
  add_connections ;;
  add_constraints ;;
  set_operating_conditions ;;
  apply_scaling ;;
  init_system None ;;
  emit (Printed "dof") ;;
  solve "fs.treatment.md" None false true ;;
  emit (Called Configure "FPC.heat_load.unfix") ;;
  solve "m" None true false ;;
  emit (Called Configure "FPC.heat_load.fix") ;;
  solve "m" None false true ;;
  emit (Printed "termination") ;;
  add_costing ;;
  emit (Printed "dof") ;;
  solve "m" None false true ;;
  emit (Printed "termination costing") ;;
  emit (Reported m_LCOT).

Definition print_results_summary : M unit :=
  emit (Printed "After Optimization System Degrees of Freedom") ;;
  emit (Reported m_LCOW) ;;
  emit (Reported m_LCOH) ;;
  emit (Reported m_LCOT) ;;
  emit (Printed "Percent from the grid") ;;
  emit (Called Diagnose "report_MD") ;;
  emit (Called Diagnose "report_md_costing") ;;
  emit (Called Diagnose "print_DWI_costing_breakdown") ;;
  emit (Called Diagnose "report_fpc") ;;
  emit (Called Diagnose "report_fpc_costing") ;;
  report_costing.

(** The [__main__] block. *)
Definition script : M unit :=
  build_sweep None (Some 0.01) "LCOT" ;;
  emit (Reported m_LCOT) ;;
  emit (Printed "FPC.heat_load") ;;
  solve "m" None false true ;;
  emit (Reported m_LCOT) ;;
  emit (Printed "FPC.heat_load").

End KBHDP_RPT_3.

(** ** reflo/analysis/case_studies/permian/permian_ST2_MD.py *)
Module permian_ST2_MD.
Local Open Scope prog_scope.

Definition case_study_yaml (reflo_dir : string) : string :=
  reflo_dir +:+ "/data/technoeconomic/permian_case_study.yaml".

Definition propagate_state (arc : string) : M unit :=
  invoke Initialize ("propagate_state " +:+ arc).

Definition get_stream_density : M unit :=
  invoke Assemble "ConcreteModel" ;;
  invoke Assemble "FlowsheetBlock" ;;
  invoke Assemble "SeawaterParameterBlock" ;;
  invoke Assemble "Feed feed_sw" ;;
  invoke Configure "feed_sw.properties.calculate_state" ;;
  invoke Initialize "feed_sw.initialize" ;;
  emit (Called Diagnose "value dens_mass_phase").

Definition treatment_arcs : list string :=
  [ "feed_to_chem_addition"; "chem_addition_to_ec"; "ec_to_cart_filt";
    "cart_filt_to_translator"; "cart_filt_translated_to_md"; "md_to_product";
    "ec_to_disposal_mix"; "cart_filt_to_disposal_mix";
    "disposal_ZO_mix_to_nacl_translator"; "md_disposal_to_nacl_translator";
    "disposal_ZO_mix_translated_to_disposal_NaCl_mixer";
    "md_disposal_translated_to_disposal_NaCl_mixer";
    "mixer_to_normalized_feed" ].

Definition build_permian_st2_md (reflo_dir : string) : M unit :=
  invoke Assemble "ConcreteModel" ;;
  invoke Assemble "FlowsheetBlock" ;;
  invoke Assemble "REFLODatabase" ;;
  invoke Assemble "ZO" ;;
  invoke Assemble "SeawaterParameterBlock" ;;
  invoke Assemble "SteamParameterBlock" ;;
  invoke Assemble "NaClParameterBlock" ;;
  invoke Assemble "Block fs.treatment" ;;
  invoke Assemble "Feed" ;;
  invoke Assemble "Translator_ZO_to_SW zo_to_sw_feed" ;;
  invoke Assemble "Translator_ZO_to_NaCl zo_mix_to_nacl_disposal" ;;
  invoke Assemble "Mixer disposal_ZO_mixer" ;;
  invoke Assemble "Translator_SW_to_NaCl sw_to_nacl_product" ;;
  invoke Assemble "Translator_SW_to_NaCl sw_to_nacl_disposal" ;;
  invoke Assemble "Mixer disposal_NaCl_mixer" ;;
  invoke Assemble "Normalizer_Cryst norm_feed" ;;
  invoke Assemble "FlowsheetBlock chem_addition" ;;
  invoke Assemble "build_chem_addition" ;;
  invoke Assemble "FlowsheetBlock EC" ;;
  invoke Assemble "build_ec" ;;
  invoke Assemble "FlowsheetBlock cart_filt" ;;
  invoke Assemble "build_cartridge_filtration" ;;
  invoke Assemble "FlowsheetBlock md" ;;
  invoke Assemble "build_md" ;;
  for_each treatment_arcs (λ a, invoke Assemble ("Arc " +:+ a)) ;;
  invoke Assemble "network.expand_arcs" ;;
  invoke Assemble "Block fs.energy" ;;
  invoke Assemble "FlowsheetBlock fs.energy.cst" ;;
  invoke Assemble "build_cst" ;;
  invoke Assemble ("TreatmentCosting " +:+ case_study_yaml reflo_dir) ;;
  invoke Assemble "EnergyCosting".

Definition set_operating_conditions_st2_md : M unit :=
  emit (Called Configure "feed.flow_mass_comp[H2O].fix") ;;
  emit (Called Configure "feed.flow_mass_comp[tds].fix") ;;
  emit (Called Configure "feed.conc_mass_comp") ;;
  invoke Configure "set_chem_addition_op_conditions" ;;
  invoke Configure "set_ec_operating_conditions" ;;
  invoke Configure "set_cart_filt_op_conditions" ;;
  invoke Configure "set_cst_op_conditions".

Definition add_costing_st2_md (reflo_dir : string) : M unit :=
  invoke Assemble ("TreatmentCosting " +:+ case_study_yaml reflo_dir) ;;
  invoke Assemble "add_chem_addition_costing" ;;
  invoke Assemble "add_ec_costing" ;;
  invoke Assemble "add_cartridge_filtration_costing" ;;
  invoke Assemble "md.unit.add_costing_module" ;;
  invoke Assemble "add_mec_costing" ;;
  invoke Assemble "treatment.costing.cost_process" ;;
  invoke Assemble "treatment.costing.add_LCOW" ;;
  invoke Assemble "add_cst_costing" ;;
  invoke Assemble "energy.costing.cost_process" ;;
  emit (Called Configure "maintenance_labor_chemical_factor.fix") ;;
  invoke Assemble "energy.costing.add_LCOH" ;;
  invoke Assemble "REFLOSystemCosting" ;;
  emit (Called Configure "heat_cost_buy.fix") ;;
  emit (Called Configure "electricity_cost_buy.set_value") ;;
  invoke Assemble "fs.costing.cost_process" ;;
  invoke Assemble "fs.costing.add_LCOT" ;;
  invoke Assemble "fs.costing.add_LCOH" ;;
  emit (Printed "--------- INITIALIZING SYSTEM COSTING ---------") ;;
  invoke Initialize "energy.costing.initialize" ;;
  invoke Initialize "treatment.costing.initialize" ;;
  invoke Initialize "fs.costing.initialize" ;;
  emit (Printed "--------- INITIALIZING SYSTEM COSTING COMPLETE---------").

Definition set_permian_pretreatment_scaling_st2_md
    (calclate_m_scaling_factors : bool) : M unit :=
  invoke Configure "properties.set_default_scaling flow_mass_comp H2O 1e-2" ;;
  invoke Configure "properties.set_default_scaling flow_mass_comp tds 0.1" ;;
  invoke Configure "properties_feed.set_default_scaling Liq TDS 0.1" ;;
  invoke Configure "properties_feed.set_default_scaling Liq H2O 1e-2" ;;
  invoke Configure "set_chem_addition_scaling" ;;
  invoke Configure "set_cart_filt_scaling" ;;
  invoke Configure "set_ec_scaling" ;;
  invoke Configure "set_scaling_factor zo_to_sw_feed Liq H2O 1e-2" ;;
  invoke Configure "set_scaling_factor zo_to_sw_feed Liq TDS 0.1" ;;
  invoke Configure "set_scaling_factor zo_mixer_state Liq H2O 100" ;;
  invoke Configure "set_scaling_factor zo_mixer_state Liq NaCl 10" ;;
  invoke Configure "set_scaling_factor md_disposal_state Liq H2O 1e-3" ;;
  invoke Configure "set_scaling_factor md_disposal_state Liq NaCl 1e-2" ;;
  invoke Configure "set_scaling_factor mixed_state Liq H2O 1e-1" ;;
  invoke Configure "set_scaling_factor mixed_state Liq NaCl 1e-2" ;;
  if calclate_m_scaling_factors then
    emit (Printed "calclate_m_scaling_factors") ;;
    invoke Configure "calculate_scaling_factors"
  else ret tt.

Definition init_system_st2_md : M unit :=
  invoke Initialize "treat.feed.initialize" ;;
  propagate_state "feed_to_chem_addition" ;;
  invoke Initialize "init_chem_addition" ;;
  propagate_state "chem_addition_to_ec" ;;
  invoke Initialize "init_ec" ;;
  propagate_state "ec_to_cart_filt" ;;
  propagate_state "ec_to_disposal_mix" ;;
  invoke Initialize "init_cart_filt" ;;
  propagate_state "cart_filt_to_translator" ;;
  propagate_state "cart_filt_to_disposal_mix" ;;
  invoke Initialize "disposal_ZO_mixer.initialize" ;;
  propagate_state "disposal_ZO_mix_to_nacl_translator" ;;
  emit (Called Configure "zo_mix_to_nacl_disposal.outlet.temperature.fix") ;;
  emit (Called Configure "zo_mix_to_nacl_disposal.outlet.pressure.fix") ;;
  emit (Called Configure "zo_mix_to_nacl_disposal.outlet.flow Vap H2O fix") ;;
  emit (Called Configure "zo_mix_to_nacl_disposal.outlet.flow Sol NaCl fix") ;;
  invoke Initialize "zo_mix_to_nacl_disposal.initialize" ;;
  emit (Called Configure "zo_to_sw_feed.temperature.fix") ;;
  emit (Called Configure "zo_to_sw_feed.pressure.fix") ;;
  invoke Initialize "zo_to_sw_feed.initialize" ;;
  propagate_state "cart_filt_translated_to_md" ;;
  invoke Initialize "init_md" ;;
  propagate_state "md_to_product" ;;
  propagate_state "md_disposal_to_nacl_translator" ;;
  emit (Called Configure "sw_to_nacl_disposal.outlet.flow Vap H2O fix") ;;
  emit (Called Configure "sw_to_nacl_disposal.outlet.flow Sol NaCl fix") ;;
  propagate_state "disposal_ZO_mix_translated_to_disposal_NaCl_mixer" ;;
  propagate_state "md_disposal_translated_to_disposal_NaCl_mixer" ;;
  invoke Initialize "disposal_NaCl_mixer.initialize" ;;
  emit (Called Configure "disposal_NaCl_mixer.mixed_state.temperature.fix") ;;
  emit (Called Configure "disposal_NaCl_mixer.mixed_state.pressure.fix") ;;
  propagate_state "mixer_to_normalized_feed" ;;
  invoke Initialize "init_cst".

Definition run_permian_st2_md (reflo_dir : string) : M unit :=
  get_stream_density ;;
  invoke Assemble "build_and_run_permian_pretreatment" ;;
  emit (Printed "Pretreatment Product Flow m3/s") ;;
  emit (Printed "Pretreatment Product Flow g/L") ;;
  build_permian_st2_md reflo_dir ;;
  set_operating_conditions_st2_md ;;
  set_permian_pretreatment_scaling_st2_md true ;;
  emit (Called Configure "treat.feed.properties[0].flow_vol") ;;
  init_system_st2_md ;;
  emit (Printed "DOF") ;;
  results <- call Solve "m" ;;
  assert_optimal_termination results ;;
  emit (Printed "--------- Before costing solve Completed ---------") ;;
  emit (Called Diagnose "report_MD") ;;
  invoke Assemble "FlowsheetBlock treat.mec" ;;
  invoke Assemble "build_mec" ;;
  invoke Configure "set_mec_op_conditions" ;;
  invoke Initialize "init_mec" ;;
  invoke Configure "unfix_mec" ;;
  invoke Assemble "Constraint cryst_feed_H2O_constraint" ;;
  invoke Assemble "Constraint cryst_feed_NaCl_constraint" ;;
  invoke Assemble "Constraint cryst_feed_temp_constraint" ;;
  invoke Assemble "Constraint cryst_feed_pressure_constraint" ;;
  emit (Printed "Water") ;;
  emit (Printed "Nacl") ;;
  emit (Printed "Temp") ;;
  emit (Printed "Pressure") ;;
  invoke Assemble "Denormalizer_Cryst denorm_cryst_product" ;;
  invoke Assemble "Mixer product_NaCl_mixer" ;;
  invoke Assemble "Product" ;;
  invoke Assemble "Arc cryst_product_to_denomalizer" ;;
  invoke Assemble "Arc md_translator_to_product_NaCl_mixer" ;;
  invoke Assemble "Arc cryst_denomalizer_to_product_NaCl_mixer" ;;
  invoke Assemble "Arc product_NaCl_mixer_to_product" ;;
  invoke Assemble "network.expand_arcs" ;;
  emit (Called Configure "sw_to_nacl_product.outlet.flow Vap H2O fix") ;;
  emit (Called Configure "sw_to_nacl_product.outlet.flow Sol NaCl fix") ;;
  invoke Initialize "sw_to_nacl_product.initialize" ;;
  propagate_state "cryst_product_to_denomalizer" ;;
  invoke Initialize "denorm_cryst_product.initialize" ;;
  propagate_state "md_translator_to_product_NaCl_mixer" ;;
  propagate_state "cryst_denomalizer_to_product_NaCl_mixer" ;;
  emit (Called Configure "product_NaCl_mixer.outlet.pressure.fix") ;;
  invoke Initialize "product_NaCl_mixer.initialize" ;;
  propagate_state "product_NaCl_mixer_to_product" ;;
  emit (Called Configure "treat.product.properties[0].flow_vol") ;;
  emit (Called Configure "treat.product.properties[0].flow_vol_phase") ;;
  invoke Initialize "treat.product.initialize" ;;
  emit (Called Configure "cst.unit.heat_load.unfix") ;;
  emit (Printed "DOF") ;;
  results <- call Solve "m" ;;
  assert_optimal_termination results ;;
  emit (Printed "--------- CST Inputs Completed ---------") ;;
  emit (Printed "CST Heat load") ;;
  emit (Printed "CST Heat") ;;
  add_costing_st2_md reflo_dir ;;
  results <- call Solve "m" ;;
  emit (Called Configure "cst.unit.heat_load.fix") ;;
  results <- try_except_ValueError
               (r <- call Solve "m" ;;
                emit (Called Diagnose "print_infeasible_constraints") ;;
                ret r)
               (emit (Called Diagnose "print_infeasible_constraints") ;;
                ret results) ;;
  assert_optimal_termination results ;;
  emit (Printed "--------- After costing solve Completed ---------") ;;
  emit (Reported m_LCOW).

(** The [__main__] block. *)
Definition script (reflo_dir : string) : M unit :=
  run_permian_st2_md reflo_dir ;;
  emit (Called Diagnose "report_MD") ;;
  emit (Printed "DOF") ;;
  emit (Printed "-------------------- System Cost Report --------------------") ;;
  emit (Reported m_LCOW) ;;
  emit (Reported m_LCOT) ;;
  emit (Printed "--------- CST Inputs Completed ---------") ;;
  emit (Printed "CST Heat load") ;;
  emit (Printed "CST Heat") ;;
  emit (Printed "-------------------- Pretreatment Report --------------------") ;;
  emit (Printed "Pretreatment Recovery") ;;
  emit (Printed "Inlet flow_vol") ;;
  emit (Printed "Inlet TDS conc") ;;
  emit (Printed "EC feed TDS conc") ;;
  emit (Printed "EC product TDS conc") ;;
  emit (Printed "EC disposal TDS conc") ;;
  emit (Printed "CF feed TDS conc") ;;
  emit (Printed "Product TDS conc") ;;
  emit (Printed "Product flow_vol") ;;
  emit (Printed "Aggregated Heat Cost").

End permian_ST2_MD.

(** ** The two test modules

    A test module is the list of its test functions in file order (the
    order pytest runs them on the shared fixture); a test function is the
    list of its steps. *)
Inductive test_step : Type :=
  | Arrange (what : string)
  | SolveModel
  | AssertOptimalTermination
  | AssertApprox (quantity : string) (expected rel : Q)
  | AssertEqual (quantity : string) (expected : Z)
  | AssertStructure (what : string)
  | AssertRaises (what : string).

Definition test_module : Type := list (string * list test_step).

(** The steps of a module, in execution order. *)
Definition steps (t : test_module) : list test_step := flat_map snd t.

(** An assertion that compares a number with a number. *)
Definition is_numeric_assertion (s : test_step) : bool :=
  match s with
  | AssertApprox _ _ _ | AssertEqual _ _ => true
  | _ => false
  end.

Definition is_approx (s : test_step) : bool :=
  match s with AssertApprox _ _ _ => true | _ => false end.

(** Scanning the steps with one flag.  [optimal] says that the model as it
    stands has been solved and the solve asserted optimal: it is set by
    [assert_optimal_termination] and cleared by model set-up and by a new
    solve.  [approx_after_optimal] asks every approximate comparison to
    come with the flag set. *)
Fixpoint approx_after_optimal (optimal : bool) (ss : list test_step) : bool :=
  match ss with
  | [] => true
  | AssertOptimalTermination :: ss' => approx_after_optimal true ss'
  | Arrange _ :: ss' | SolveModel :: ss' => approx_after_optimal false ss'
  | AssertApprox _ _ _ :: ss' => optimal && approx_after_optimal optimal ss'
  | _ :: ss' => approx_after_optimal optimal ss'
  end.

(** The claim about the tests as it is worded: each numeric assertion is
    an approximate comparison made with the flag set. *)
Fixpoint every_numeric_is_approx_after_optimal
    (optimal : bool) (ss : list test_step) : bool :=
  match ss with
  | [] => true
  | AssertOptimalTermination :: ss' => every_numeric_is_approx_after_optimal true ss'
  | Arrange _ :: ss' | SolveModel :: ss' =>
      every_numeric_is_approx_after_optimal false ss'
  | AssertApprox _ _ _ :: ss' =>
      optimal && every_numeric_is_approx_after_optimal optimal ss'
  | AssertEqual _ _ :: _ => false
  | _ :: ss' => every_numeric_is_approx_after_optimal optimal ss'
  end.

(** [assert_optimal_termination] is applied to the result of the solve
    just made. *)
Fixpoint optimal_asserted_on_solve (solved : bool) (ss : list test_step) : bool :=
  match ss with
  | [] => true
  | SolveModel :: ss' => optimal_asserted_on_solve true ss'
  | Arrange _ :: ss' => optimal_asserted_on_solve false ss'
  | AssertOptimalTermination :: ss' => solved && optimal_asserted_on_solve solved ss'
  | _ :: ss' => optimal_asserted_on_solve solved ss'
  end.

Definition rel_tolerances (ss : list test_step) : list Q :=
  flat_map (λ s, match s with AssertApprox _ _ r => [r] | _ => [] end) ss.

Definition exact_assertions (ss : list test_step) : list (string * Z) :=
  flat_map (λ s, match s with AssertEqual q n => [(q, n)] | _ => [] end) ss.

Definition asserts_approx (ss : list test_step) (quantity : string) (expected rel : Q) : Prop :=
  ∃ i q e r, ss !! i = Some (AssertApprox q e r) ∧ q = quantity ∧ e == expected ∧ r == rel.

(** reflo/property_models/tests/test_FO_draw_solution_properties.py *)
Module test_FO_draw_solution_properties.

Definition test_parameter_block : list test_step :=
  [ AssertStructure "isinstance(component_list, Set)";
    AssertStructure "j in [H2O, DrawSolution]";
    AssertStructure "isinstance(solute_set, Set)";
    AssertStructure "H2O not in solute_set";
    AssertStructure "isinstance(solvent_set, Set)";
    AssertStructure "j in [H2O]";
    AssertStructure "isinstance(phase_list, Set)";
    AssertStructure "j in [Liq]";
    AssertStructure "_state_block_class is FODrawSolutionStateBlock" ].

Definition test_parameters : list test_step :=
  [ Arrange "build_state_block";
    AssertStructure "hasattr(stream[0], scaling_factor)";
    AssertStructure "isinstance(scaling_factor, Suffix)";
    AssertEqual "len(state_vars_dict)" 3;
    AssertStructure "sv in state_vars_dict";
    AssertStructure "hasattr(stream[0], sv)";
    AssertStructure "isinstance(var, Var)";
    AssertStructure "on-demand properties not built";
    AssertStructure "on-demand properties built when demanded";
    AssertEqual "number_variables(m)" 12;
    AssertEqual "number_total_constraints(m)" 8;
    AssertEqual "number_unused_variables(m)" 2;
    Arrange "fix state variables";
    Arrange "touch properties";
    Arrange "set_default_scaling";
    Arrange "calculate_scaling_factors";
    AssertStructure "assert_units_consistent";
    AssertStructure "check_dof";
    Arrange "stream.initialize";
    SolveModel;
    AssertOptimalTermination;
    AssertApprox "dens_mass_phase[Liq]" 1067.9535 0.001;
    AssertApprox "cp_mass_phase[Liq]" 2785.2975 0.001;
    AssertApprox "pressure_osm_phase[Liq]" 73161000 0.001;
    AssertApprox "flow_vol_phase[Liq]" 0.00093637 0.001;
    AssertApprox "conc_mass_phase_comp[Liq, H2O]" 533.977 0.001;
    AssertApprox "conc_mass_phase_comp[Liq, DrawSolution]" 533.977 0.001;
    AssertApprox "mass_frac_phase_comp[Liq, H2O]" 0.5 0.001;
    AssertApprox "mass_frac_phase_comp[Liq, DrawSolution]" 0.5 0.001 ].

Definition tests : test_module :=
  [ ("test_parameter_block", test_parameter_block);
    ("test_parameters", test_parameters) ].

End test_FO_draw_solution_properties.

(** seto/unit_models/surrogate/tests/test_med_tvc_surrogate.py *)
Module test_med_tvc_surrogate.

Definition feed_flow_m3_hr : Q := 277.777.
Definition dist_flow_m3_hr : Q := 83.333.
Definition brine_flow_m3_hr : Q := 194.444.
Definition cool_flow_m3_hr : Q := 131.593.
Definition feed_mass_flow_tot : Q := 78.93.
Definition cool_mass_flow_tot : Q := 37.31.
Definition feed_mass_flow_tds : Q := 2.70.
Definition brine_mass_flow_tds : Q := 2.70.
Definition recovery : Q := dist_flow_m3_hr / feed_flow_m3_hr.

Definition test_config : list test_step :=
  [ Arrange "MED_TVC_frame";
    AssertEqual "len(med_tvc.config)" 5;
    AssertStructure "not config.dynamic";
    AssertStructure "not config.has_holdup";
    AssertStructure "config.property_package_water is water_prop";
    AssertStructure "config.property_package_steam is steam_prop" ].

Definition test_num_effects_domain : list test_step :=
  [ AssertRaises "number_effects.set_value(100) raises ValueError" ].

Definition test_build : list test_step :=
  flat_map (λ port : string,
      [ AssertStructure ("isinstance(" +:+ port +:+ ", Port)");
        AssertEqual ("len(" +:+ port +:+ ".vars)") 3 ])
    [ "feed"; "distillate"; "brine"; "steam"; "motive" ]
  ++ [ AssertEqual "number_variables(m)" 201;
       AssertEqual "number_total_constraints(m)" 58;
       AssertEqual "number_unused_variables(m)" 76 ].

Definition test_dof : list test_step :=
  [ AssertEqual "degrees_of_freedom(m)" 0 ].

Definition test_calculate_scaling : list test_step :=
  [ Arrange "calculate_scaling_factors";
    AssertEqual "len(unscaled_var_list)" 0;
    AssertEqual "len(unscaled_constraint_list)" 0 ].

Definition test_var_scaling : list test_step :=
  [ AssertStructure "badly_scaled_var_lst == []" ].

Definition test_initialize : list test_step :=
  [ AssertStructure "initialization_tester" ].

Definition test_solve : list test_step :=
  [ SolveModel; AssertOptimalTermination ].

Definition test_mass_balance : list test_step :=
  [ AssertApprox "recovery_vol_phase[0, Liq]" recovery 0.001;
    AssertApprox "feed - distillate - brine flow_vol_phase"
      (feed_flow_m3_hr - dist_flow_m3_hr - brine_flow_m3_hr) 0.001;
    AssertApprox "feed_cool_mass_flow"
      (feed_mass_flow_tot + cool_mass_flow_tot) 0.01;
    AssertApprox "feed_cool_vol_flow" (feed_flow_m3_hr + cool_flow_m3_hr) 0.001;
    AssertApprox "brine TDS - feed TDS"
      (feed_mass_flow_tds - brine_mass_flow_tds) 0.000001 ].

Definition test_solution : list test_step :=
  [ AssertApprox "gain_output_ratio" 12.9102 0.001;
    AssertApprox "specific_area" 5.1664 0.001;
    AssertApprox "specific_energy_consumption_thermal" 53.1622 0.001;
    AssertApprox "thermal_power_requirement" 4430.19 0.001;
    AssertApprox "heating_steam flow_mass_phase_comp[Vap, H2O]" 2.6766 0.001;
    AssertApprox "motive_steam flow_mass_phase_comp[Vap, H2O]" 1.2175 0.001;
    AssertApprox "cooling_out flow_vol_phase[Liq]" 131.593 0.001 ].

Definition test_costing : list test_step :=
  [ Arrange "SETOWaterTAPCosting";
    Arrange "UnitModelCostingBlock";
    Arrange "fix costing factors";
    Arrange "cost_process";
    Arrange "add_annual_water_production";
    Arrange "add_LCOW";
    AssertEqual "degrees_of_freedom(m)" 0;
    SolveModel;
    AssertOptimalTermination;
    AssertApprox "costing.med_specific_cost" 2254.658 0.001;
    AssertApprox "costing.capital_cost" 5126761.859 0.001;
    AssertApprox "costing.membrane_system_cost" 2705589.357 0.001;
    AssertApprox "costing.evaporator_system_cost" 2421172.502 0.001;
    AssertApprox "costing.fixed_operating_cost" 239692.046 0.001;
    AssertApprox "fs.costing.LCOW" 1.6905 0.001;
    AssertApprox "fs.costing.total_operating_cost" 785633.993 0.001;
    AssertApprox "fs.costing.total_capital_cost" 5126761.859 0.001 ].

Definition tests : test_module :=
  [ ("test_config", test_config);
    ("test_num_effects_domain", test_num_effects_domain);
    ("test_build", test_build);
    ("test_dof", test_dof);
    ("test_calculate_scaling", test_calculate_scaling);
    ("test_var_scaling", test_var_scaling);
    ("test_initialize", test_initialize);
    ("test_solve", test_solve);
    ("test_mass_balance", test_mass_balance);
    ("test_solution", test_solution);
    ("test_costing", test_costing) ].

End test_med_tvc_surrogate.

(** ** The local files the analysis scripts name *)
Definition referenced_files (reflo_dir location : string) : list string :=
  [ KBHDP_RPT_3.case_study_yaml reflo_dir;
    KBHDP_RPT_3.weather_file location;
    KBHDP_RPT_3.param_file location;
    permian_ST2_MD.case_study_yaml reflo_dir ].

(** ** MED_VAGMD_flowsheet.py: the flowsheet around the two units *)
Module MED_VAGMD_semibatch.
Import MED_VAGMD_flowsheet.

(** The [inputs] dictionary of [add_med]. *)
Record med_inputs : Type := {
  med_feed_salinity : Q;
  med_feed_temperature : Q;
  med_steam_temperature : Q;
  med_sys_capacity : Q;
  med_recovery_ratio : Q
}.

(** [fs.med] as [add_med] leaves it: the state it computes for the feed,
    the two fixed variables, and the default scaling factors it registers
    on the two property packages. *)
Record LTMEDSurrogate : Type := {
  number_effects : Z;
  feed_flow_vol_phase : Q;        (* m3/s *)
  feed_conc_mass_TDS : Q;         (* kg/m3 *)
  feed_temperature : Q;           (* K *)
  feed_pressure : Q;              (* Pa *)
  steam_temperature : Q;          (* K, fixed *)
  recovery_vol_phase : Q;         (* fixed *)
  liquid_scaling_H2O : Q;
  liquid_scaling_TDS : Q;
  vapor_scaling_Liq_H2O : Q;
  vapor_scaling_Vap_H2O : Q
}.

(** m3/day to m3/s. *)
Definition per_day_to_per_s (q : Q) : Q := q / 86400.

(** Whether the framework's [convert_value] returns 0.0 for a capacity in
    m3/day.  It does for a capacity of zero; it works on floats, so it
    also does for a capacity so small that the conversion underflows, and
    which capacities those are is the framework's arithmetic:
    [underflows] stands for it. *)
Definition converts_to_zero (underflows : Q → bool) (sys_capacity : Q) : bool :=
  Qis_zero (per_day_to_per_s sys_capacity) || underflows sys_capacity.

(** What [add_med] computes itself; the calls of the framework before the
    division ([LTMEDSurrogate], [calculate_state], [fix]) are taken to
    return. *)
Definition add_med (underflows : Q → bool) (inputs : med_inputs)
    : result LTMEDSurrogate :=
  let feed_salinity := med_feed_salinity inputs in
  let feed_temperature := med_feed_temperature inputs in
  let steam_temperature := med_steam_temperature inputs in
  let sys_capacity := med_sys_capacity inputs in
  let recovery_ratio := 0.5 in
  let feed_flow := per_day_to_per_s (sys_capacity / recovery_ratio) in
  if converts_to_zero underflows (med_sys_capacity inputs) then Raise ZeroDivisionError
  else
    let sf := 1 / 1000 / per_day_to_per_s (med_sys_capacity inputs) in
    Ok {| number_effects := 12;
          feed_flow_vol_phase := feed_flow;
          feed_conc_mass_TDS := feed_salinity;
          feed_temperature := feed_temperature + 273.15;
          feed_pressure := 101325;
          steam_temperature := steam_temperature + 273.15;
          recovery_vol_phase := recovery_ratio;
          liquid_scaling_H2O := sf;
          liquid_scaling_TDS := 10 * sf;
          vapor_scaling_Liq_H2O := 1;
          vapor_scaling_Vap_H2O := 100 |}.

(** The variables that the flowsheet-level constraints relate; flows are
    volumetric flows of the liquid phase in m3/s. *)
Inductive fs_var : Type :=
  | dt
  | volume_in_tank
  | volume_in_tank_previous
  | S1_overflow_flow_vol
  | S2_remained_liquid_flow_vol
  | S2_MD_feed_flow_vol
  | vagmd_feed_flow_vol.

#[global] Instance fs_var_eq_dec : EqDecision fs_var.
Proof. solve_decision. Defined.

(** What [add_processing_phase_constraint] adds: named equality
    constraints and fixed variables.  The three variables it declares
    ([volume_in_tank], [volume_in_tank_previous], [dt]) have the bounds
    (0, None). *)
Record phase_constraints : Type := {
  constraints : list (string * (expr fs_var * expr fs_var));
  fixed_vars : list (fs_var * Q)
}.

(** Python's truth value of the argument [dt]: [None] and 0 are false. *)
Definition truthy (d : option Q) : bool :=
  match d with
  | Some q => negb (Qis_zero q)
  | None => false
  end.

(** m3/s to L/h, as [pyunits.convert] multiplies. *)
Definition m3_per_s_to_L_per_h (e : expr fs_var) : expr fs_var :=
  Mul (Num 3600000) e.

Definition eq_dt (module_type : string) (dt_arg : option Q) : expr fs_var * expr fs_var :=
  if truthy dt_arg then (Var dt, Num (default 0 dt_arg))
  else if String.eqb module_type "AS7C1.5L" then
    (Var dt, Div (Num 20352.55) (m3_per_s_to_L_per_h (Var vagmd_feed_flow_vol)))
  else
    (Var dt, Div (Num 73269.19) (m3_per_s_to_L_per_h (Var vagmd_feed_flow_vol))).

(** [batch_volume] litres in m3, times the conversion factor. *)
Definition eq_S2_remained_volume (batch_volume : Q) : expr fs_var * expr fs_var :=
  (Mul (Var S2_remained_liquid_flow_vol) (Var dt),
   Mul (Num 0.001) (Num batch_volume)).

Definition eq_S2_to_vagmd : expr fs_var * expr fs_var :=
  (Var S2_MD_feed_flow_vol, Var vagmd_feed_flow_vol).

Definition eq_tank_volume : expr fs_var * expr fs_var :=
  (Var volume_in_tank,
   Add (Var volume_in_tank_previous) (Mul (Var S1_overflow_flow_vol) (Var dt))).

Definition eq_separator_overflow : expr fs_var * expr fs_var :=
  (Var S1_overflow_flow_vol, Num 0).

Definition add_processing_phase_constraint
    (module_type phase : string) (batch_volume : Q) (dt_arg : option Q)
    : phase_constraints :=
  if String.eqb phase "processing" then
    {| constraints :=
         [ ("eq_dt", eq_dt module_type dt_arg);
           ("eq_S2_remained_volume", eq_S2_remained_volume batch_volume);
           ("eq_S2_to_vagmd", eq_S2_to_vagmd);
           ("eq_tank_volume", eq_tank_volume) ];
       fixed_vars := [] |}
  else if String.eqb phase "refilling" then
    {| constraints :=
         [ ("eq_separator_overflow", eq_separator_overflow);
           ("eq_S2_to_vagmd", eq_S2_to_vagmd);
           ("eq_S2_remained_volume", eq_S2_remained_volume batch_volume) ];
       fixed_vars := [ (volume_in_tank, 0) ] |}
  else
    {| constraints := []; fixed_vars := [] |}.

(** A point satisfies the flowsheet-level model when the constraints and
    the fixings hold and the three declared variables are within their
    bounds. *)
Definition satisfies (pc : phase_constraints) (rho : fs_var → Q) : Prop :=
  Forall (λ c, holds rho c.2) (constraints pc) ∧
  Forall (λ f, rho f.1 == f.2) (fixed_vars pc) ∧
  0 <= rho dt ∧ 0 <= rho volume_in_tank ∧ 0 <= rho volume_in_tank_previous.

(** The part of the flowsheet that [build_med_md_flowsheet] decides. *)
Record flowsheet : Type := {
  fs_med : LTMEDSurrogate;
  fs_vagmd : VAGMDSurrogateBase;
  fs_phase : phase_constraints
}.

Definition build_med_md_flowsheet
    (underflows : Q → bool)
    (phase : string)
    (med_feed_salinity med_feed_temp med_steam_temp med_capacity : Q)
    (med_recovry_ratio batch_volume md_feed_flow_rate : Q)
    (dt_arg : option Q) : result flowsheet :=
  med ← add_med underflows
                {| med_feed_salinity := med_feed_salinity;
                   med_feed_temperature := med_feed_temp;
                   med_steam_temperature := med_steam_temp;
                   med_sys_capacity := med_capacity;
                   med_recovery_ratio := med_recovry_ratio |};
  if Qis_zero med_recovry_ratio then Raise ZeroDivisionError
  else
    vagmd ← add_vagmd {| feed_flow_rate := md_feed_flow_rate;
                         evap_inlet_temp := 80;
                         cond_inlet_temp := 25;
                         feed_temp := 25;
                         feed_salinity := med_feed_salinity / med_recovry_ratio;
                         recovery_ratio := 0.5;
                         module_type := "AS26C7.2L";
                         cooling_system_type := "closed";
                         cooling_inlet_temp := 25 |};
    Ok {| fs_med := med;
          fs_vagmd := vagmd;
          fs_phase := add_processing_phase_constraint
                        (config_module_type vagmd) phase batch_volume dt_arg |}.

(** [m.fs.<name>] for a constraint: Pyomo raises [AttributeError] for a
    component the block does not have. *)
Definition get_constraint (pc : phase_constraints) (name : string)
    : result (expr fs_var * expr fs_var) :=
  match list_find (λ c, c.1 = name) (constraints pc) with
  | Some (_, c) => Ok c.2
  | None => Raise (FrameworkError ("AttributeError: " +:+ name))
  end.

(** What [fix_dof_and_initialize] leaves behind, the initialization
    calls of the framework's units apart: the scaling factors after the
    framework's [calculate_scaling_factors(m)] and the scaling block, the
    value that the framework's [calculate_variable_from_constraint] gives
    [dt] from [eq_dt] with the VAGMD feed flow held at 600 L/h, and the flow
    of the remained liquid [50 / 1000 / dt]. *)
Record initial_state : Type := {
  init_scaling_factor : gmap string Q;
  init_vagmd_feed_flow_vol : Q;
  init_dt : Q;
  init_remained_liquid_flow_vol : Q;
  init_fixed : list (fs_var * Q)
}.

Definition fix_dof_and_initialize
    (calculate_scaling_factors : gmap string Q → gmap string Q)
    (fs : flowsheet) (sf : gmap string Q) : result initial_state :=
  let sf := fix_dof_scaling calculate_scaling_factors sf in
  let feed_flow := 600 / 3600000 in
  c ← get_constraint (fs_phase fs) "eq_dt";
  match value (λ v, match v with vagmd_feed_flow_vol => feed_flow | _ => 0 end) c.2 with
  | None => Raise ZeroDivisionError
  | Some dt_value =>
      if Qis_zero dt_value then Raise ZeroDivisionError
      else Ok {| init_scaling_factor := sf;
                 init_vagmd_feed_flow_vol := feed_flow;
                 init_dt := dt_value;
                 init_remained_liquid_flow_vol := 50 / 1000 / dt_value;
                 init_fixed := [ (volume_in_tank_previous, 0) ] |}
  end.

(** Inputs and points used in the examples. *)
Definition sample_med_inputs : med_inputs :=
  {| med_feed_salinity := 30; med_feed_temperature := 25;
     med_steam_temperature := 80; med_sys_capacity := 1;
     med_recovery_ratio := 0.3 |}.

Definition processing_point : fs_var → Q :=
  λ v, match v with
       | dt => 73269.19 / 600
       | vagmd_feed_flow_vol | S2_MD_feed_flow_vol => 600 / 3600000
       | S2_remained_liquid_flow_vol => 0.05 / (73269.19 / 600)
       | S1_overflow_flow_vol => 2
       | volume_in_tank_previous => 1
       | volume_in_tank => 1 + 2 * (73269.19 / 600)
       end.

Definition refilling_point : fs_var → Q :=
  λ v, match v with
       | dt => 100
       | vagmd_feed_flow_vol | S2_MD_feed_flow_vol => 600 / 3600000
       | S2_remained_liquid_flow_vol => 0.0005
       | S1_overflow_flow_vol => 0
       | volume_in_tank_previous => 3
       | volume_in_tank => 0
       end.

End MED_VAGMD_semibatch.

(** ** Reports made only on success *)

(** A program is quiet when it reports no levelized cost, whatever the
    framework answers. *)
Definition quiet {A} (c : M A) : Prop :=
  ∀ o n, Forall (λ e, is_report e = false) (trace (c o n)).

(** The [try] block around the last solve of [run_permian_st2_md]
    (permian_ST2_MD.py); [results] is the result of the solve before. *)
Definition resolve_after_costing (results : SolverResults) : M SolverResults :=
  try_except_ValueError
    (bind (call Solve "m") (λ r,
       bind (emit (Called Diagnose "print_infeasible_constraints")) (λ _, ret r)))
    (bind (emit (Called Diagnose "print_infeasible_constraints")) (λ _, ret results)).

(** Sum of a list of numbers, from the left. *)
Definition Qsum (xs : list Q) : Q := fold_left Qplus xs 0.

(** A solver that never reaches an optimal termination, whatever it is
    asked. *)
Definition never_optimal (o : oracle) : Prop :=
  ∀ k r, o k = Returns r → check_optimal_termination r = false.

(** A program that, with such a solver, ends in an exception and has
    reported no levelized cost by then. *)
Definition fails_quietly {A} (c : M A) : Prop :=
  ∀ o n, never_optimal o →
    is_raise (res (c o n)) = true ∧
    Forall (λ e, is_report e = false) (trace (c o n)).

(** A program that reports [e] exactly when it returns. *)
Definition reports_iff_returns (e : event) (c : M unit) : Prop :=
  ∀ o n, e ∈ trace (c o n) ↔ res (c o n) = Ok tt.

(** * Properties *)

Ltac run_prog := cbv [bind call emit ret raise invoke lift trace calls res].

Section PV_battery.
Import PV_RO_battery_mutiperiod_class.

Lemma Qis_zero_false (q : Q) : ¬ q == 0 → Qis_zero q = false.
Proof.
  intros H. unfold Qis_zero. destruct (Qeq_bool q 0) eqn:E; [|done].
  apply Qeq_bool_iff in E. contradiction.
Qed.

Lemma Qis_zero_true (q : Q) : q == 0 → Qis_zero q = true.
Proof. intros H. unfold Qis_zero. by apply Qeq_bool_iff. Qed.

Lemma value_fold_left_Add {V} (rho : V → Q) (vs : list V) (acc : expr V) (a : Q) :
  value rho acc = Some a →
  ∃ s, value rho (fold_left Add (map Var vs) acc) = Some s.
Proof.
  revert acc a. induction vs as [|v vs IH]; intros acc a Ha; simpl.
  - eauto.
  - apply (IH _ (a + rho v)). simpl. by rewrite Ha.
Qed.

Lemma value_py_sum_vars {V} (rho : V → Q) (vs : list V) :
  ∃ s, value rho (py_sum (map Var vs)) = Some s.
Proof. unfold py_sum. by apply (value_fold_left_Add rho vs (Num 0) 0). Qed.

Lemma create_inv n ro re cp ce GHI ep mp :
  create_multiperiod_pv_battery_model n ro re cp ce GHI ep = Ok mp →
  (0 < n)%nat ∧ n_time_points mp = n ∧
  link_constraints mp = build_link_constraints get_pv_ro_variable_pairs n ∧
  fixed mp = [ ((0%nat, battery_initial_state_of_charge), 0);
               ((0%nat, battery_initial_energy_throughput), 0) ] ∧
  battery_cost mp =
    Mul (Num 0.096)
        (Add (Mul (Num cp) (Var (0%nat, battery_nameplate_power)))
             (Mul (Num ce) (Var (0%nat, battery_nameplate_energy)))) ∧
  pv_cost mp =
    Add (Mul (Mul (Num 1040) (Var (0%nat, pv_size))) (Num 0.096))
        (Mul (Num 9) (Var (0%nat, pv_size))) ∧
  total_cost mp =
    Add (Mul (Div (Div (Add (battery_cost mp) (pv_cost mp)) (Num 365)) (Num 24))
             (Num (inject_Z (Z.of_nat n))))
        (py_sum (map (λ i, Var (i, grid_cost)) (seq 0 n))) ∧
  LCOW mp = Add (Mul (Div (Div (total_cost mp) (Num ro)) (Num 24))
                     (Num (inject_Z (Z.of_nat n)))) (Num 0.45) ∧
  obj mp = LCOW mp.
Proof.
  unfold create_multiperiod_pv_battery_model.
  destruct (make_flowsheet_options _ _ _ _ _) as [opts|e]; [|done].
  destruct n as [|n']; [done|].
  intros [= <-]. repeat split; try reflexivity. lia.
Qed.

Lemma value_Add {V} (rho : V → Q) a b :
  value rho (Add a b) = x ← value rho a; y ← value rho b; Some (x + y).
Proof. reflexivity. Qed.

Lemma total_cost_has_value n ro re cp ce GHI ep mp rho :
  create_multiperiod_pv_battery_model n ro re cp ce GHI ep = Ok mp →
  ∃ tc, value rho (total_cost mp) = Some tc.
Proof.
  intros (_ & _ & _ & _ & Hb & Hp & Ht & _)%create_inv.
  destruct (value_py_sum_vars rho (map (λ i, (i, grid_cost)) (seq 0 n))) as [s Hs].
  rewrite map_map in Hs.
  rewrite Ht, Hb, Hp.
  set (g := py_sum _) in *. cbn. rewrite Hs. cbn. eauto.
Qed.

(** The value of the LCOW expression that the script builds. *)
Lemma LCOW_value n ro re cp ce GHI ep mp rho tc :
  create_multiperiod_pv_battery_model n ro re cp ce GHI ep = Ok mp →
  value rho (total_cost mp) = Some tc →
  ¬ ro == 0 →
  value rho (LCOW mp) = Some (tc / ro / 24 * inject_Z (Z.of_nat n) + 0.45).
Proof.
  intros (_ & _ & _ & _ & _ & _ & _ & Hl & _)%create_inv Htc Hro.
  rewrite Hl. cbn [value]. rewrite Htc. cbn [mbind option_bind].
  rewrite (Qis_zero_false ro Hro). reflexivity.
Qed.

Lemma LCOW_value_zero_capacity n ro re cp ce GHI ep mp rho :
  create_multiperiod_pv_battery_model n ro re cp ce GHI ep = Ok mp →
  ro == 0 → value rho (LCOW mp) = None.
Proof.
  intros Hc Hro. destruct (total_cost_has_value _ _ _ _ _ _ _ _ rho Hc) as [tc Htc].
  apply create_inv in Hc as (_ & _ & _ & _ & _ & _ & _ & Hl & _).
  rewrite Hl. cbn [value]. rewrite Htc. cbn [mbind option_bind].
  by rewrite (Qis_zero_true ro Hro).
Qed.

(** The code's formula against cost per produced volume: they agree
    exactly when nothing is spent or the horizon is one day. *)
Lemma LCOW_formula_levelized_iff (tc ro : Q) (n : nat) :
  ¬ ro == 0 → (0 < n)%nat →
  tc / ro / 24 * inject_Z (Z.of_nat n) + 0.45 == levelized_cost_of_water tc ro n
  ↔ tc == 0 ∨ n = 24%nat.
Proof.
  intros Hro Hn. unfold levelized_cost_of_water, water_produced.
  set (k := inject_Z (Z.of_nat n)).
  assert (Hk : ¬ k == 0).
  { unfold k. intros H. unfold Qeq in H. simpl in H. lia. }
  split.
  - intros H.
    assert (H0 : tc / ro / 24 * k == tc / (ro / 24 * k)).
    { by apply (Qplus_inj_r _ _ 0.45). }
    assert (H1 : tc * (k * k) == tc * 576).
    { transitivity (tc / ro / 24 * k * (ro * 24 * k)); [field; done|].
      rewrite H0. field. split; [done|]. done. }
    destruct (Qeq_dec tc 0) as [Hz|Hnz]; [by left|right].
    assert (H3 : k * k == 576).
    { apply (Qmult_inj_l _ _ tc); done. }
    unfold k, Qeq in H3. simpl in H3. nia.
  - intros [Hz| ->].
    + rewrite Hz. field. split; [done|]. done.
    + subst k. simpl. field. done.
Qed.

(** C1.  The multi-period model built for 12 time points: at a point where
    every block buys 10 from the grid and nothing is installed, the total
    cost is 120, the LCOW expression of the code evaluates to
    120 / 6000 / 24 * 12 + 0.45 = 0.46, and the cost per produced volume
    (6000 m3/day over 12 hours is 3000 m3) plus 0.45 is 0.49.  The code's
    expression is not the levelized cost of water for this horizon. *)
Theorem LCOW_not_levelized_for_12_time_points :
  ∃ mp tc lcow,
    create_default 12 = Ok mp ∧
    value (grid_only 10) (total_cost mp) = Some tc ∧ tc == 120 ∧
    value (grid_only 10) (LCOW mp) = Some lcow ∧ lcow == 0.46 ∧
    levelized_cost_of_water tc 6000 12 == 0.49 ∧
    ¬ lcow == levelized_cost_of_water tc 6000 12.
Proof.
  destruct (create_default 12) as [mp|e] eqn:Hc; [|by vm_compute in Hc].
  unfold create_default in Hc.
  destruct (total_cost_has_value _ _ _ _ _ _ _ _ (grid_only 10) Hc) as [tc Htc].
  assert (Htc' : tc == 120).
  { revert Htc. vm_compute in Hc. injection Hc as <-. vm_compute. intros [= <-]. reflexivity. }
  exists mp, tc, (tc / 6000 / 24 * inject_Z (Z.of_nat 12) + 0.45).
  split; [done|]. split; [done|]. split; [done|].
  split; [by apply (LCOW_value _ _ _ _ _ _ _ _ _ _ Hc Htc)|].
  unfold levelized_cost_of_water, water_produced.
  rewrite Htc'. split; [reflexivity|]. split; [reflexivity|]. intros H. vm_compute in H. done.
Qed.

Lemma filter_links_flat_map (t : nat) (ts : list nat) :
  filter (λ p : block_var * block_var, p.1.1 = t)
         (flat_map (λ u, get_pv_ro_variable_pairs u (S u)) ts)
  = flat_map (λ u, if decide (u = t) then get_pv_ro_variable_pairs u (S u) else []) ts.
Proof.
  induction ts as [|u ts IH]; [done|].
  change (flat_map ?f (u :: ts)) with (f u ++ flat_map f ts).
  rewrite filter_app, IH. f_equal.
  unfold get_pv_ro_variable_pairs.
  destruct (decide (u = t)) as [->|Hne].
  - repeat (rewrite filter_cons_True; [|done]). done.
  - repeat (rewrite filter_cons_False; [|simpl; congruence]). done.
Qed.

Lemma flat_map_select {A} (f : nat → list A) (t a m : nat) :
  (a ≤ t < a + m)%nat →
  flat_map (λ u, if decide (u = t) then f u else []) (seq a m) = f t.
Proof.
  revert a. induction m as [|m IH]; intros a Ht; [lia|].
  simpl. destruct (decide (a = t)) as [->|Hne].
  - assert (Hrest : ∀ b k, (t < b)%nat →
        flat_map (λ u, if decide (u = t) then f u else []) (seq b k) = []).
    { intros b k. revert b. induction k as [|k IHk]; intros b Hb; [done|].
      simpl. destruct (decide (b = t)); [lia|]. apply IHk. lia. }
    rewrite Hrest by lia. by rewrite app_nil_r.
  - simpl. apply IH. lia.
Qed.

(** C5.  In a model that [create_multiperiod_pv_battery_model] returns, the
    links that start in block [t] (with [t + 1] a block of the model) are
    exactly five: state of charge to the next initial state of charge,
    energy throughput to the next initial energy throughput, and nameplate
    power, nameplate energy and PV size to themselves in the next block.
    Every link goes from a block to its successor, and the fixed variables
    are block 0's initial state of charge and initial energy throughput,
    both at 0. *)
Theorem consecutive_blocks_linked_by_five_pairs n ro re cp ce GHI ep mp (t : nat) :
  create_multiperiod_pv_battery_model n ro re cp ce GHI ep = Ok mp →
  (S t < n)%nat →
  filter (λ p : block_var * block_var, p.1.1 = t) (link_constraints mp)
  = [ ((t, battery_state_of_charge 0), (S t, battery_initial_state_of_charge));
      ((t, battery_energy_throughput 0), (S t, battery_initial_energy_throughput));
      ((t, battery_nameplate_power), (S t, battery_nameplate_power));
      ((t, battery_nameplate_energy), (S t, battery_nameplate_energy));
      ((t, pv_size), (S t, pv_size)) ]
  ∧ (∀ p, p ∈ link_constraints mp → p.2.1 = S p.1.1 ∧ (S p.1.1 < n)%nat)
  ∧ fixed mp = [ ((0%nat, battery_initial_state_of_charge), 0);
                 ((0%nat, battery_initial_energy_throughput), 0) ].
Proof.
  intros (_ & _ & Hl & Hf & _)%create_inv Ht.
  rewrite Hl, Hf. unfold build_link_constraints.
  split; [|split; [|done]].
  - rewrite filter_links_flat_map.
    rewrite (flat_map_select (λ u, get_pv_ro_variable_pairs u (S u))) by lia. done.
  - intros p Hp. apply list_elem_of_In, in_flat_map in Hp as (u & Hu & Hp).
    apply in_seq in Hu. unfold get_pv_ro_variable_pairs in Hp. simpl in Hp.
    destruct Hp as [<-|[<-|[<-|[<-|[<-|[]]]]]]; simpl; split; lia.
Qed.

Lemma consecutive_blocks_linked_by_five_pairs_witness :
  ∃ mp, create_default 24 = Ok mp ∧ (S 3 < 24)%nat ∧
    length (filter (λ p : block_var * block_var, p.1.1 = 3%nat) (link_constraints mp)) = 5%nat.
Proof.
  destruct (create_default 24) as [mp|e] eqn:Hc; [|by vm_compute in Hc].
  exists mp. split; [done|]. split; [lia|]. unfold create_default in Hc.
  destruct (consecutive_blocks_linked_by_five_pairs 24 _ _ _ _ _ _ mp 3 Hc ltac:(lia)) as [-> _].
  reflexivity.
Defined.

(** Every link of the model is one of the five pairs of some consecutive
    blocks. *)
Lemma link_in_pairs n ro re cp ce GHI ep mp (t : nat) p :
  create_multiperiod_pv_battery_model n ro re cp ce GHI ep = Ok mp →
  (S t < n)%nat → p ∈ get_pv_ro_variable_pairs t (S t) → p ∈ link_constraints mp.
Proof.
  intros (_ & _ & Hl & _)%create_inv Ht Hp. rewrite Hl.
  unfold build_link_constraints. apply list_elem_of_In, in_flat_map.
  exists t. split; [apply in_seq; lia|by apply list_elem_of_In].
Qed.

(** X5.  At any point that satisfies the links, the three design variables
    have the value they have in block 0. *)
Lemma design_variables_shared n ro re cp ce GHI ep mp rho (t : nat) :
  create_multiperiod_pv_battery_model n ro re cp ce GHI ep = Ok mp →
  feasible mp rho → (t < n)%nat →
  rho (t, battery_nameplate_power) == rho (0%nat, battery_nameplate_power) ∧
  rho (t, battery_nameplate_energy) == rho (0%nat, battery_nameplate_energy) ∧
  rho (t, pv_size) == rho (0%nat, pv_size).
Proof.
  intros Hc [Hlink _]. induction t as [|t IH]; intros Ht; [done|].
  destruct IH as (IH1 & IH2 & IH3); [lia|].
  pose proof (λ p Hp, Hlink p (link_in_pairs _ _ _ _ _ _ _ _ t p Hc Ht Hp)) as H.
  unfold get_pv_ro_variable_pairs in H.
  rewrite <- IH1, <- IH2, <- IH3. repeat split; symmetry.
  - apply (H ((t, battery_nameplate_power), (S t, battery_nameplate_power))). set_solver.
  - apply (H ((t, battery_nameplate_energy), (S t, battery_nameplate_energy))). set_solver.
  - apply (H ((t, pv_size), (S t, pv_size))). set_solver.
Qed.

End PV_battery.

Section vagmd.
Import MED_VAGMD_flowsheet.

(** C4.  A call of [add_vagmd] for module AS7C1.5L with feed salinity 100
    and recovery ratio 0.5 (final brine salinity 200 > 175.3): the local
    [feed_flow_rate] is set to 1100, and the unit is built closed, with
    high brine salinity, evaporator inlet at 80 + 273.15 and condenser
    inlet at 25 + 273.15; but no feed flow rate reaches the unit, neither
    1100 nor the caller's. *)
Theorem add_vagmd_high_salinity_feed_flow_dropped :
  ∃ l u, add_vagmd_locals high_salinity_inputs = Ok l ∧
    l_feed_flow_rate l = 1100 ∧
    add_vagmd high_salinity_inputs = Ok u ∧
    config_cooling_system_type u = "closed" ∧
    config_high_brine_salinity u = true ∧
    fixed u = [ (evaporator_in_temperature, 80 + 273.15);
                (condenser_in_temperature, 25 + 273.15) ] ∧
    ¬ constructed_with_feed_flow u 1100.
Proof.
  eexists _, _. split; [reflexivity|]. split; [reflexivity|].
  split; [reflexivity|]. repeat split.
  intros (v & Hin & _). cbn in Hin.
  apply elem_of_cons in Hin as [[=]|Hin].
  apply elem_of_cons in Hin as [[=]|Hin].
  by apply elem_of_nil in Hin.
Qed.

(** The unit does not depend on the feed flow rate the caller gives. *)
Lemma add_vagmd_ignores_feed_flow_rate i q :
  add_vagmd {| feed_flow_rate := q;
               evap_inlet_temp := evap_inlet_temp i;
               cond_inlet_temp := cond_inlet_temp i;
               feed_temp := feed_temp i;
               feed_salinity := feed_salinity i;
               recovery_ratio := recovery_ratio i;
               module_type := module_type i;
               cooling_system_type := cooling_system_type i;
               cooling_inlet_temp := cooling_inlet_temp i |}
  = add_vagmd i.
Proof.
  unfold add_vagmd, add_vagmd_locals. cbn.
  destruct (Qis_zero _); [done|]. by destruct (_ && _).
Qed.

Lemma add_vagmd_never_fixes_feed_flow i u :
  add_vagmd i = Ok u → ∀ q, ¬ constructed_with_feed_flow u q.
Proof.
  unfold add_vagmd. destruct (add_vagmd_locals i) as [l|e]; [|done].
  cbn. intros [= <-] q (v & Hin & _). cbn in Hin.
  apply elem_of_cons in Hin as [[=]|Hin].
  destruct (String.eqb _ _);
    apply elem_of_cons in Hin as [[=]|Hin]; by apply elem_of_nil in Hin.
Qed.

(** X10.  [add_vagmd] fails with [ZeroDivisionError] exactly for a recovery ratio
    of 1. *)
Lemma add_vagmd_raises_iff i :
  add_vagmd i = Raise ZeroDivisionError ↔ recovery_ratio i == 1.
Proof.
  unfold add_vagmd, add_vagmd_locals. split.
  - destruct (Qis_zero (1 - recovery_ratio i)) eqn:E.
    + intros _. unfold Qis_zero in E. apply Qeq_bool_iff in E.
      rewrite <- (Qplus_0_l (recovery_ratio i)), <- E. ring.
    + by destruct (_ && _).
  - intros H. rewrite Qis_zero_true; [done|]. rewrite H. ring.
Qed.

(** X8.  For module AS7C1.5L, when Python finds the final brine salinity above
    175.3, the unit is built in the high-salinity mode, with a closed
    cooling circuit and the inlet temperatures 80 and 25 degC, whatever
    the inputs name. *)
Lemma add_vagmd_high_salinity i :
  ¬ recovery_ratio i == 1 →
  module_type i = "AS7C1.5L" →
  final_brine_salinity_above_threshold (feed_salinity i) (recovery_ratio i) = true →
  add_vagmd i = Ok {|
    config_module_type := "AS7C1.5L";
    config_high_brine_salinity := true;
    config_cooling_system_type := "closed";
    fixed := [ (evaporator_in_temperature, 80 + 273.15);
               (condenser_in_temperature, 25 + 273.15) ] |}.
Proof.
  intros Hrr Hm Hs. unfold add_vagmd, add_vagmd_locals.
  rewrite Qis_zero_false.
  2:{ intros H. apply Hrr. rewrite <- (Qplus_0_l (recovery_ratio i)), <- H. ring. }
  rewrite Hm, Hs. reflexivity.
Qed.

(** X9.  For any other module, or when Python does not find the final brine
    salinity above 175.3, the unit takes module, cooling system and
    temperatures from the inputs; a cooling system other than closed fixes
    the cooling inlet instead of the condenser inlet. *)
Lemma add_vagmd_otherwise i :
  ¬ recovery_ratio i == 1 →
  (module_type i ≠ "AS7C1.5L" ∨
   final_brine_salinity_above_threshold (feed_salinity i) (recovery_ratio i) = false) →
  add_vagmd i = Ok {|
    config_module_type := module_type i;
    config_high_brine_salinity := false;
    config_cooling_system_type := cooling_system_type i;
    fixed := (evaporator_in_temperature, evap_inlet_temp i + 273.15) ::
             (if String.eqb (cooling_system_type i) "closed"
              then [ (condenser_in_temperature, cond_inlet_temp i + 273.15) ]
              else [ (cooling_in_temperature, cooling_inlet_temp i + 273.15) ]) |}.
Proof.
  intros Hrr Hc. unfold add_vagmd, add_vagmd_locals.
  rewrite Qis_zero_false.
  2:{ intros H. apply Hrr. rewrite <- (Qplus_0_l (recovery_ratio i)), <- H. ring. }
  assert (Hb : String.eqb (module_type i) "AS7C1.5L"
               && final_brine_salinity_above_threshold (feed_salinity i)
                                                       (recovery_ratio i) = false).
  { apply andb_false_iff. destruct Hc as [Hm|Hs]; [left|by right].
    by apply String.eqb_neq. }
  rewrite Hb. reflexivity.
Qed.

End vagmd.

Lemma list_ascii_of_string_app a b :
  String.list_ascii_of_string (a +:+ b) =
  String.list_ascii_of_string a ++ String.list_ascii_of_string b.
Proof. induction a as [|c a IH]; simpl; [done|]. by rewrite IH. Qed.

Lemma starts_with_app p s t : starts_with p s = true → starts_with p (s ++ t) = true.
Proof.
  revert s. induction p as [|a p IH]; intros s; [done|].
  destruct s as [|b s]; simpl; [done|].
  intros [-> H]%andb_true_iff. simpl. by apply IH.
Qed.

Lemma starts_with_app_false p s t :
  (length p ≤ length s)%nat → starts_with p s = false → starts_with p (s ++ t) = false.
Proof.
  revert s. induction p as [|a p IH]; intros s Hlen; [done|].
  destruct s as [|b s]; simpl in *; [lia|].
  destruct (Ascii.eqb a b); simpl; [|done]. apply IH. lia.
Qed.

Lemma endswith_app a b suf : endswith b suf = true → endswith (a +:+ b) suf = true.
Proof.
  unfold endswith. rewrite list_ascii_of_string_app, rev_app_distr.
  apply starts_with_app.
Qed.

Lemma length_list_ascii_of_string s :
  length (String.list_ascii_of_string s) = String.length s.
Proof. induction s; simpl; congruence. Qed.

Lemma endswith_app_false a b suf :
  (String.length suf ≤ String.length b)%nat →
  endswith b suf = false → endswith (a +:+ b) suf = false.
Proof.
  unfold endswith. rewrite list_ascii_of_string_app, rev_app_distr.
  intros Hlen. apply starts_with_app_false.
  by rewrite !length_rev, !length_list_ascii_of_string.
Qed.

Lemma format_of_app a b :
  (5 ≤ String.length b)%nat → format_of (a +:+ b) = format_of b.
Proof.
  intros Hlen. unfold format_of.
  assert (H : ∀ suf, (String.length suf ≤ 5)%nat →
                     endswith (a +:+ b) suf = endswith b suf).
  { intros suf Hs. destruct (endswith b suf) eqn:E.
    - by apply endswith_app.
    - apply endswith_app_false; [lia|done]. }
  rewrite !H by (simpl; lia). done.
Qed.

Lemma string_app_assoc (x y z : string) : (x +:+ y) +:+ z = x +:+ (y +:+ z).
Proof.
  induction x as [|c x IH]; [done|].
  change (String c ((x +:+ y) +:+ z) = String c (x +:+ (y +:+ z))).
  by rewrite IH.
Qed.

Lemma os_path_join_tail a b : ∃ pre, os_path_join a b = pre +:+ b.
Proof.
  unfold os_path_join. destruct (String.eqb a _); [by exists EmptyString|].
  destruct (endswith a "/"); [by exists a|].
  exists (a +:+ "/"). by rewrite string_app_assoc.
Qed.

(** C6 (amended).  Wherever the repository is installed, the four local
    files the analysis scripts name are, in order, a YAML case-study
    definition, a CSV weather file, a JSON parameter file and a YAML
    case-study definition. *)
Theorem referenced_files_formats reflo_dir location :
  map format_of (referenced_files reflo_dir location) = [YAML; CSV; JSON; YAML].
Proof.
  unfold referenced_files. simpl map.
  unfold KBHDP_RPT_3.case_study_yaml, KBHDP_RPT_3.weather_file,
    KBHDP_RPT_3.param_file, permian_ST2_MD.case_study_yaml.
  destruct (os_path_join_tail location "el_paso_texas-KBHDP-weather.csv") as [p1 ->].
  destruct (os_path_join_tail location "swh-kbhdp.json") as [p2 ->].
  rewrite !format_of_app by (simpl; lia). reflexivity.
Qed.

(** C6, as stated, fails: [param_file] of KBHDP_RPT_3 is a JSON file. *)
Lemma param_file_is_not_csv_or_yaml :
  ¬ Forall (λ f, format_of f = CSV ∨ format_of f = YAML)
      (referenced_files "/repo/src/watertap_contrib/reflo"
         "/repo/src/watertap_contrib/reflo/analysis/case_studies/KBHDP").
Proof.
  intros H. apply Forall_cons in H as [_ H]. apply Forall_cons in H as [_ H].
  apply Forall_cons in H as [[H|H] _]; vm_compute in H; done.
Qed.


Section flat_plate.
Import flat_plate_pysam.

(** C8.  At every point that satisfies the constraints of
    [FlatPlateSurrogateData.build], [heat_annual] is [heat] times the hours
    of one year and [electricity_annual] is [electricity] times the same
    factor, which is 8766. *)
Theorem annual_constraints_hold (rho : fp_var → Q) :
  feasible rho →
  rho heat_annual == rho heat * hours_per_year ∧
  rho electricity_annual == rho electricity * hours_per_year ∧
  hours_per_year == 8766.
Proof.
  intros H. unfold feasible, build_constraints in H.
  apply Forall_cons in H as [(x & y & Hx & Hy & Hxy) H].
  apply Forall_cons in H as [(x' & y' & Hx' & Hy' & Hxy') _].
  cbn in Hx, Hy, Hx', Hy'. simplify_eq. repeat split; done.
Qed.

Lemma annual_constraints_hold_witness :
  feasible sample_point ∧
  sample_point heat_annual == sample_point heat * hours_per_year ∧
  sample_point electricity_annual == sample_point electricity * hours_per_year ∧
  hours_per_year == 8766.
Proof.
  assert (H : feasible sample_point).
  { unfold feasible, build_constraints.
    apply List.Forall_cons; [|apply List.Forall_cons; [|apply List.Forall_nil]].
    - eexists _, _. split; [reflexivity|]. split; [reflexivity|]. reflexivity.
    - eexists _, _. split; [reflexivity|]. split; [reflexivity|]. reflexivity. }
  split; [exact H|]. exact (annual_constraints_hold sample_point H).
Defined.

End flat_plate.

(** C9 (amended).  In both test modules every approximate comparison is
    made on a model that was solved and whose solve was asserted optimal,
    with a relative tolerance of 1e-3, 1e-2 or 1e-6; the two comparisons the
    claim quotes are among them.  The modules also hold exact integer
    comparisons: four in the FO draw-solution module, thirteen in the
    MED-TVC module. *)
Theorem approx_assertions_follow_optimal_solve :
  Forall (λ t : test_module,
            approx_after_optimal false (steps t) = true ∧
            optimal_asserted_on_solve false (steps t) = true ∧
            Forall (λ r, r == 0.001 ∨ r == 0.01 ∨ r == 0.000001)
                   (rel_tolerances (steps t)))
         [ test_FO_draw_solution_properties.tests; test_med_tvc_surrogate.tests ]
  ∧ asserts_approx (steps test_FO_draw_solution_properties.tests)
      "dens_mass_phase[Liq]" 1067.9535 0.001
  ∧ asserts_approx (steps test_med_tvc_surrogate.tests)
      "gain_output_ratio" 12.9102 0.001
  ∧ exact_assertions (steps test_FO_draw_solution_properties.tests)
    = [ ("len(state_vars_dict)", 3%Z); ("number_variables(m)", 12%Z);
        ("number_total_constraints(m)", 8%Z); ("number_unused_variables(m)", 2%Z) ]
  ∧ length (exact_assertions (steps test_med_tvc_surrogate.tests)) = 13%nat.
Proof.
  split; [|split; [|split; [|split]]].
  - apply List.Forall_cons; [|apply List.Forall_cons; [|apply List.Forall_nil]].
    + split; [reflexivity|]. split; [reflexivity|].
      repeat (apply List.Forall_cons; [left; reflexivity|]). apply List.Forall_nil.
    + split; [reflexivity|]. split; [reflexivity|].
      repeat first
        [ apply List.Forall_nil
        | apply List.Forall_cons;
          [first [left; reflexivity | right; left; reflexivity
                 | right; right; reflexivity]|] ].
  - exists 30%nat. eexists _, _, _. split; [reflexivity|]. split; [reflexivity|].
    split; reflexivity.
  - exists 33%nat. eexists _, _, _. split; [reflexivity|]. split; [reflexivity|].
    split; reflexivity.
  - reflexivity.
  - reflexivity.
Qed.

(** C9, as stated, fails: both modules hold numeric assertions that are
    exact comparisons (the first of them before any solve). *)
Lemma exact_assertion_before_any_solve :
  every_numeric_is_approx_after_optimal false
    (steps test_FO_draw_solution_properties.tests) = false ∧
  every_numeric_is_approx_after_optimal false
    (steps test_med_tvc_surrogate.tests) = false.
Proof. split; reflexivity. Qed.

Section solve_and_initialize.
Import KBHDP_RPT_3 flat_plate_pysam.

Lemma solve_invokes_solver_once m solver tee rof o n :
  calls (solve m solver tee rof o n) = S n ∧
  length (filter (λ e, is_solve e = true) (trace (solve m solver tee rof o n))) = 1%nat.
Proof.
  unfold solve. destruct solver as [s|]; run_prog.
  all: destruct (o n) as [[[|]]|e]; cbn; destruct rof; cbn; done.
Qed.

Lemma solve_optimal m solver tee rof (o : oracle) n r :
  o n = Returns r → check_optimal_termination r = true →
  res (solve m solver tee rof o n) = Ok r.
Proof.
  intros Ho Hr. unfold solve. destruct solver; run_prog; rewrite Ho; cbn; rewrite Hr; done.
Qed.

Lemma solve_not_optimal_raises m solver tee (o : oracle) n r :
  o n = Returns r → check_optimal_termination r = false →
  res (solve m solver tee true o n) = Raise (RuntimeError infeasible_msg).
Proof.
  intros Ho Hr. unfold solve. destruct solver; run_prog; rewrite Ho; cbn; rewrite Hr; done.
Qed.

(** X25.  [solve] with [raise_on_failure=False] on a result that is not optimal:
    the result is returned, after the message is printed. *)
Lemma solve_not_optimal_prints m solver tee (o : oracle) n r :
  o n = Returns r → check_optimal_termination r = false →
  res (solve m solver tee false o n) = Ok r ∧
  last (trace (solve m solver tee false o n)) = Some (Printed infeasible_msg).
Proof.
  intros Ho Hr. unfold solve. destruct solver; run_prog; rewrite Ho; cbn; rewrite Hr; done.
Qed.

Lemma solve_propagates m solver tee rof (o : oracle) n e :
  o n = Throws e → res (solve m solver tee rof o n) = Raise e.
Proof. intros Ho. unfold solve. destruct solver; run_prog; rewrite Ho; done. Qed.

(** X23.  [initialize] with the default solver, when the solve returns: it ends
    in [InitializationError] exactly when the termination is not optimal,
    and returns exactly when it is. *)
Lemma initialize_default_solver name (o : oracle) n r :
  o n = Returns r →
  (res (initialize name None o n)
     = Raise (InitializationError ("Unit model " +:+ name +:+ " failed to initialize"))
   ↔ check_optimal_termination r = false) ∧
  (res (initialize name None o n) = Ok tt ↔ check_optimal_termination r = true).
Proof.
  intros Ho. unfold initialize. run_prog. rewrite Ho. cbn.
  destruct (check_optimal_termination r); cbn; split; split; done.
Qed.

(** C2.  [FlatPlatePySAM.initialize] called with a solver: whatever the
    framework would answer, the call ends in [UnboundLocalError] for [opt],
    without a solve and without a termination check.  This failure path is
    neither the [InitializationError] of a failed solve nor an exception
    of the framework. *)
Theorem initialize_with_solver_is_unbound name s o n :
  res (initialize name (Some s) o n) = Raise (UnboundLocalError "opt") ∧
  Forall (λ e, is_solve e = false) (trace (initialize name (Some s) o n)) ∧
  calls (initialize name (Some s) o n) = n.
Proof. unfold initialize. cbn. repeat split. repeat constructor. Qed.

Lemma default_scaling_lookup sf c c' :
  default_scaling sf c !! c' =
  if decide (c = c') then Some (default 1 (sf !! c')) else sf !! c'.
Proof.
  unfold default_scaling, iscale.get_scaling_factor, iscale.set_scaling_factor.
  destruct (decide (c = c')) as [->|Hne].
  - destruct (sf !! c') as [v|] eqn:E; simpl; [done|]. by rewrite lookup_insert_eq.
  - destruct (sf !! c) as [v|] eqn:E; simpl; [done|]. by rewrite lookup_insert_ne.
Qed.

Lemma flowsheet_scaling_lookup (sf : gmap string Q) (c : string) :
  MED_VAGMD_flowsheet.flowsheet_scaling sf !! c =
    (if decide (c = "fs.volume_in_tank") then Some (default 100 (sf !! c))
     else if decide (c = "fs.volume_in_tank_previous")
          then match sf !! "fs.volume_in_tank" with
               | None => Some 100
               | Some _ => sf !! c
               end
     else if decide (c = "fs.dt") then Some (default 0.1 (sf !! c))
     else sf !! c).
Proof.
  unfold MED_VAGMD_flowsheet.flowsheet_scaling,
    iscale.get_scaling_factor, iscale.set_scaling_factor.
  destruct (sf !! "fs.volume_in_tank") as [v|] eqn:E1.
  - destruct (sf !! "fs.dt") as [d|] eqn:E2.
    + repeat case_decide; simplify_eq; simpl; rewrite ?E1, ?E2; done.
    + repeat case_decide; simplify_eq; simpl;
        rewrite ?lookup_insert_eq, ?lookup_insert_ne, ?E1, ?E2 by done; done.
  - rewrite !lookup_insert_ne by done.
    destruct (sf !! "fs.dt") as [d|] eqn:E2.
    + repeat case_decide; simplify_eq; simpl;
        rewrite ?lookup_insert_eq, ?lookup_insert_ne, ?E1, ?E2 by done;
        rewrite ?lookup_insert_eq, ?lookup_insert_ne, ?E1, ?E2 by done; done.
    + repeat case_decide; simplify_eq; simpl;
        rewrite ?lookup_insert_eq, ?lookup_insert_ne, ?E1, ?E2 by done;
        rewrite ?lookup_insert_eq, ?lookup_insert_ne, ?E1, ?E2 by done;
        rewrite ?lookup_insert_eq, ?lookup_insert_ne, ?E1, ?E2 by done; done.
Qed.

(** C3 (amended).  Numeric solving is the framework's:
    [FlatPlatePySAM.initialize] (called without a solver) and
    [KBHDP_RPT_3.solve] each make exactly one call of the framework's
    solver and solve nothing themselves.  Scaling and initialization are
    partly the repository's own.
    Scaling: [FlatPlateSurrogateData.calculate_scaling_factors] gives each
    of its five components the factor 1 when it has none and keeps a factor
    that is set; [fix_dof_and_initialize] first calls the framework's
    [calculate_scaling_factors(m)] and then gives [volume_in_tank] and
    [volume_in_tank_previous] the factor 100 when [volume_in_tank] has none,
    and [dt] the factor 0.1 when it has none.  Neither changes another
    factor (in [fix_dof_and_initialize]: another factor that the framework's
    call left).
    Initialization: [FlatPlatePySAM.initialize] itself raises
    [InitializationError] when the framework's solve returns a result that
    is not optimal, returns when it is optimal and lets an exception of
    the solver through; [fix_dof_and_initialize], when it returns, has
    itself held the VAGMD feed flow at 600 L/h, set the remained-liquid
    flow to [50 / 1000 / dt], where [dt] is the value that satisfies
    [eq_dt] at that feed flow, and fixed [volume_in_tank_previous] at 0. *)
Theorem scaling_defaults_set_in_repo
    (calculate_scaling_factors_m : gmap string Q → gmap string Q)
    (sf : gmap string Q) (c : string)
    (name m : string) (solver : option string) (tee raise_on_failure : bool)
    (o : oracle) (n : nat) :
  (* scaling *)
  (calculate_scaling_factors sf !! c =
     (if decide (c ∈ scaled_components) then Some (default 1 (sf !! c)) else sf !! c)
   ∧ MED_VAGMD_flowsheet.fix_dof_scaling calculate_scaling_factors_m sf !! c =
     (if decide (c = "fs.volume_in_tank")
      then Some (default 100 (calculate_scaling_factors_m sf !! c))
      else if decide (c = "fs.volume_in_tank_previous")
           then match calculate_scaling_factors_m sf !! "fs.volume_in_tank" with
                | None => Some 100
                | Some _ => calculate_scaling_factors_m sf !! c
                end
      else if decide (c = "fs.dt")
           then Some (default 0.1 (calculate_scaling_factors_m sf !! c))
      else calculate_scaling_factors_m sf !! c))
  ∧ (* numeric solving *)
  (calls (initialize name None o n) = S n
   ∧ filter (λ e, is_solve e = true) (trace (initialize name None o n))
     = [ Called Solve name ]
   ∧ calls (KBHDP_RPT_3.solve m solver tee raise_on_failure o n) = S n
   ∧ filter (λ e, is_solve e = true)
            (trace (KBHDP_RPT_3.solve m solver tee raise_on_failure o n))
     = [ Called Solve m ])
  ∧ (* initialization *)
  (res (initialize name None o n) =
     match o n with
     | Returns r =>
         if check_optimal_termination r then Ok tt
         else Raise (InitializationError
                       ("Unit model " +:+ name +:+ " failed to initialize"))
     | Throws e => Raise e
     end
   ∧ ∀ fs st,
       MED_VAGMD_semibatch.fix_dof_and_initialize calculate_scaling_factors_m fs sf
         = Ok st →
       MED_VAGMD_semibatch.init_scaling_factor st
         = MED_VAGMD_flowsheet.fix_dof_scaling calculate_scaling_factors_m sf ∧
       MED_VAGMD_semibatch.init_vagmd_feed_flow_vol st = 600 / 3600000 ∧
       (∃ eq_dt,
          MED_VAGMD_semibatch.get_constraint (MED_VAGMD_semibatch.fs_phase fs) "eq_dt"
            = Ok eq_dt ∧
          value (λ v, match v with
                      | MED_VAGMD_semibatch.vagmd_feed_flow_vol => 600 / 3600000
                      | _ => 0
                      end) eq_dt.2
            = Some (MED_VAGMD_semibatch.init_dt st)) ∧
       MED_VAGMD_semibatch.init_remained_liquid_flow_vol st
         = 50 / 1000 / MED_VAGMD_semibatch.init_dt st ∧
       MED_VAGMD_semibatch.init_fixed st
         = [ (MED_VAGMD_semibatch.volume_in_tank_previous, 0) ]).
Proof.
  split; [split|split].
  - unfold calculate_scaling_factors. rewrite !default_scaling_lookup.
    destruct (decide (c ∈ scaled_components)) as [Hin|Hout].
    + unfold scaled_components in Hin.
      repeat (apply elem_of_cons in Hin as [->|Hin]);
        [..|by apply elem_of_nil in Hin]; by destruct (sf !! _).
    + repeat (destruct (decide (_ = c)) as [<-|_];
                [exfalso; apply Hout; unfold scaled_components;
                 repeat first [apply list_elem_of_here|apply list_elem_of_further]|]).
      done.
  - unfold MED_VAGMD_flowsheet.fix_dof_scaling. apply flowsheet_scaling_lookup.
  - unfold initialize, KBHDP_RPT_3.solve. destruct solver; run_prog;
      destruct (o n) as [[[|]]|e]; cbn; destruct raise_on_failure; cbn; done.
  - split.
    + unfold initialize. run_prog. destruct (o n) as [r|e]; cbn; [|done].
      by destruct (check_optimal_termination r).
    + intros fs st. unfold MED_VAGMD_semibatch.fix_dof_and_initialize.
      destruct (MED_VAGMD_semibatch.get_constraint _ _) as [c0|e]; [|done].
      cbn [mbind result_bind].
      destruct (value _ _) as [d|] eqn:Ed; [|done].
      destruct (Qis_zero d); [done|]. intros [= <-]. cbn.
      split; [done|]. split; [done|]. split; [eauto|]. by split.
Qed.

(** C3, as stated, fails, for scaling and for initialization.  Started on
    a model without scaling factors, both scaling routines of the
    repository assign factors themselves; and [FlatPlatePySAM.initialize]
    ends in an exception of its own where the framework's solve returned. *)
Lemma in_repo_scaling_assigns_factors :
  ¬ assigns_no_scaling_factor calculate_scaling_factors ∧
  ¬ assigns_no_scaling_factor MED_VAGMD_flowsheet.flowsheet_scaling ∧
  ¬ adds_no_initialization_logic (initialize "fpc" None).
Proof.
  split; [|split].
  - intros H. specialize (H ∅).
    apply (f_equal (λ m : gmap string Q, m !! "heat")) in H.
    by vm_compute in H.
  - intros H. specialize (H ∅).
    apply (f_equal (λ m : gmap string Q, m !! "fs.dt")) in H.
    by vm_compute in H.
  - intros H.
    specialize (H (always {| optimal := false |}) 0%nat {| optimal := false |} eq_refl).
    by vm_compute in H.
Qed.

End solve_and_initialize.















(** *** The scripts, one by one *)


























(** *** From the automaton to positions in the trace *)








(** *** Runs that return have reported *)












(** * Further properties of the code *)

(** ** The multi-period PV/battery/RO model *)
Section PV_battery_more.
Import PV_RO_battery_mutiperiod_class.

Lemma py_for_ok {A} (f : nat → result A) (ts : list nat) :
  (∀ t, t ∈ ts → ∃ x, f t = Ok x) →
  ∃ xs, py_for f ts = Ok xs ∧ length xs = length ts ∧
        ∀ i t, ts !! i = Some t → ∃ x, xs !! i = Some x ∧ f t = Ok x.
Proof.
  induction ts as [|t ts IH]; intros H.
  - exists []. by repeat split.
  - destruct (H t) as [x Hx]; [apply list_elem_of_here|].
    destruct IH as (xs & Hxs & Hlen & Hlook).
    { intros t' Ht'. apply H. by apply list_elem_of_further. }
    exists (x :: xs). simpl. rewrite Hx. simpl. rewrite Hxs. simpl.
    split; [done|]. split; [by rewrite Hlen|].
    intros [|i] t' Hi; simpl in Hi.
    + injection Hi as <-. eauto.
    + by apply Hlook.
Qed.

Lemma py_for_raise {A} (f : nat → result A) (ts : list nat) e :
  (∀ t, t ∈ ts → f t = Raise e ∨ ∃ x, f t = Ok x) →
  (∃ t, t ∈ ts ∧ f t = Raise e) →
  py_for f ts = Raise e.
Proof.
  induction ts as [|t ts IH]; intros Hall (t' & Ht' & Hf).
  - by apply elem_of_nil in Ht'.
  - simpl. destruct (Hall t) as [Hr|[x Hx]]; [apply list_elem_of_here| |].
    + by rewrite Hr.
    + rewrite Hx. simpl. rewrite IH; [done| |].
      * intros u Hu. apply Hall. by apply list_elem_of_further.
      * apply elem_of_cons in Ht' as [->|Ht']; [congruence|eauto].
Qed.

Lemma nth_error_is_lookup {A} (xs : list A) i : nth_error xs i = xs !! i.
Proof. revert i. induction xs as [|x xs IH]; intros [|i]; simpl; auto. Qed.

Lemma py_index_ok {A} (xs : list A) i : (i < length xs)%nat → ∃ x, py_index xs i = Ok x ∧ xs !! i = Some x.
Proof.
  intros H. unfold py_index. destruct (nth_error xs i) as [x|] eqn:E.
  - exists x. split; [done|]. by rewrite <- nth_error_is_lookup.
  - apply nth_error_None in E. lia.
Qed.

Lemma py_index_raise {A} (xs : list A) i : (length xs ≤ i)%nat → py_index xs i = Raise IndexError.
Proof.
  intros H. unfold py_index. destruct (nth_error xs i) as [x|] eqn:E; [|done].
  assert (nth_error xs i ≠ None) as Hn by congruence.
  apply nth_error_Some in Hn. lia.
Qed.

Lemma flowsheet_option_cases ro re (GHI ep : list Q) (t : nat) :
  ((t < length GHI)%nat ∧ (t < length ep)%nat ∧
   ∃ g p, GHI !! t = Some g ∧ ep !! t = Some p ∧
     (g ← py_index GHI t; p ← py_index ep t;
      Ok {| opt_GHI := g; opt_elec_price := p;
            opt_ro_capacity := ro; opt_ro_elec_req := re |})
     = Ok {| opt_GHI := g; opt_elec_price := p;
             opt_ro_capacity := ro; opt_ro_elec_req := re |})
  ∨ (((length GHI ≤ t)%nat ∨ (length ep ≤ t)%nat) ∧
     (g ← py_index GHI t; p ← py_index ep t;
      Ok {| opt_GHI := g; opt_elec_price := p;
            opt_ro_capacity := ro; opt_ro_elec_req := re |})
     = Raise IndexError).
Proof.
  destruct (decide (t < length GHI)%nat) as [Hg|Hg].
  - destruct (py_index_ok GHI t Hg) as (g & Hgi & Hgl). rewrite Hgi. simpl.
    destruct (decide (t < length ep)%nat) as [Hp|Hp].
    + destruct (py_index_ok ep t Hp) as (p & Hpi & Hpl). rewrite Hpi. simpl.
      left. split; [done|]. split; [done|]. by exists g, p.
    + right. split; [lia|]. rewrite (py_index_raise ep) by lia. done.
  - right. split; [lia|]. rewrite (py_index_raise GHI) by lia. done.
Qed.

(** X1.  For a positive number of time points the model is built exactly
    when [GHI] and [elec_price] have an entry for every time point; a
    list that is too short gives [IndexError]. *)
Theorem create_model_needs_data_per_time_point n ro re cp ce (GHI ep : list Q) :
  (0 < n)%nat →
  ((n ≤ length GHI)%nat ∧ (n ≤ length ep)%nat →
     ∃ mp, create_multiperiod_pv_battery_model n ro re cp ce GHI ep = Ok mp ∧
           n_time_points mp = n ∧ length (model_data_kwargs mp) = n) ∧
  (¬ ((n ≤ length GHI)%nat ∧ (n ≤ length ep)%nat) →
     create_multiperiod_pv_battery_model n ro re cp ce GHI ep = Raise IndexError).
Proof.
  intros Hn. unfold create_multiperiod_pv_battery_model, make_flowsheet_options. split.
  - intros [Hg Hp].
    edestruct (py_for_ok (λ t, g ← py_index GHI t; p ← py_index ep t;
                Ok {| opt_GHI := g; opt_elec_price := p;
                      opt_ro_capacity := ro; opt_ro_elec_req := re |}) (seq 0 n))
      as (xs & Hxs & Hlen & _).
    { intros t Ht. apply elem_of_seq in Ht.
      destruct (flowsheet_option_cases ro re GHI ep t) as [(_ & _ & g & p & _ & _ & ->)|[[?|?] _]];
        [eauto|lia|lia]. }
    rewrite Hxs. simpl. destruct n as [|n']; [lia|].
    eexists. split; [reflexivity|]. simpl. by rewrite Hlen, length_seq.
  - intros Hnot.
    rewrite (py_for_raise _ _ IndexError); [done| |].
    + intros t _.
      destruct (flowsheet_option_cases ro re GHI ep t) as [(_ & _ & g & p & _ & _ & ->)|[_ ->]];
        eauto.
    + assert (Hshort : (length GHI < n)%nat ∨ (length ep < n)%nat) by lia.
      exists (Nat.min (length GHI) (length ep)). split; [apply elem_of_seq; lia|].
      destruct (flowsheet_option_cases ro re GHI ep (Nat.min (length GHI) (length ep)))
        as [(? & ? & _)|[_ ->]]; [lia|done].
Qed.

Lemma create_model_needs_data_per_time_point_witness :
  (0 < 24)%nat ∧
  (∃ mp, create_default 24 = Ok mp ∧ n_time_points mp = 24%nat ∧
         length (model_data_kwargs mp) = 24%nat) ∧
  create_multiperiod_pv_battery_model 25 6000 944.3 75 50 default_GHI default_elec_price
    = Raise IndexError.
Proof.
  split; [lia|]. split.
  - apply (create_model_needs_data_per_time_point 24 6000 944.3 75 50
             default_GHI default_elec_price); [lia|].
    split; vm_compute; lia.
  - apply (create_model_needs_data_per_time_point 25 6000 944.3 75 50
             default_GHI default_elec_price); [lia|].
    intros [H _]. vm_compute in H. lia.
Defined.

(** X2.  Block [t] of a built model is given [GHI[t]] and
    [elec_price[t]], and the same RO capacity and electricity demand as
    every other block. *)
Theorem block_options_follow_inputs n ro re cp ce (GHI ep : list Q) mp (t : nat) :
  create_multiperiod_pv_battery_model n ro re cp ce GHI ep = Ok mp →
  (t < n)%nat →
  ∃ g p, GHI !! t = Some g ∧ ep !! t = Some p ∧
    model_data_kwargs mp !! t =
      Some {| opt_GHI := g; opt_elec_price := p;
              opt_ro_capacity := ro; opt_ro_elec_req := re |}.
Proof.
  unfold create_multiperiod_pv_battery_model, make_flowsheet_options.
  intros Hc Ht.
  set (f := λ t, g ← py_index GHI t; p ← py_index ep t;
                 Ok {| opt_GHI := g; opt_elec_price := p;
                       opt_ro_capacity := ro; opt_ro_elec_req := re |}) in *.
  destruct (py_for f (seq 0 n)) as [xs|e] eqn:Hxs; [|done].
  simpl in Hc. destruct n as [|n']; [lia|]. injection Hc as <-. simpl.
  assert (Hlook : ∀ ts xs, py_for f ts = Ok xs →
            ∀ i u, ts !! i = Some u → ∃ x, xs !! i = Some x ∧ f u = Ok x).
  { clear. induction ts as [|u ts IH]; intros xs Hxs i v Hi; [done|].
    simpl in Hxs. destruct (f u) as [x|] eqn:Hx; [|done]. simpl in Hxs.
    destruct (py_for f ts) as [ys|] eqn:Hys; [|done]. simpl in Hxs.
    injection Hxs as <-. destruct i as [|i]; simpl in Hi.
    - injection Hi as <-. eauto.
    - by apply (IH ys). }
  destruct (Hlook _ _ Hxs t t) as (x & Hx & Hfx).
  { apply lookup_seq. lia. }
  unfold f in Hfx.
  destruct (flowsheet_option_cases ro re GHI ep t)
    as [(_ & _ & g & p & Hg & Hp & Heq)|[_ Heq]]; rewrite Heq in Hfx; [|done].
  injection Hfx as <-. by exists g, p.
Qed.

Lemma block_options_follow_inputs_witness :
  ∃ mp, create_default 24 = Ok mp ∧ (12 < 24)%nat ∧
    ∃ g p, default_GHI !! 12%nat = Some g ∧ default_elec_price !! 12%nat = Some p ∧
      model_data_kwargs mp !! 12%nat =
        Some {| opt_GHI := g; opt_elec_price := p;
                opt_ro_capacity := 6000; opt_ro_elec_req := 944.3 |}.
Proof.
  destruct (create_default 24) as [mp|e] eqn:Hc; [|by vm_compute in Hc].
  exists mp. split; [done|]. split; [lia|]. unfold create_default in Hc.
  exact (block_options_follow_inputs 24 _ _ _ _ _ _ mp 12 Hc ltac:(lia)).
Defined.

(** X3.  A model of [n] time blocks holds [5 * (n - 1)] linking
    constraints. *)
Theorem link_constraints_count n ro re cp ce GHI ep mp :
  create_multiperiod_pv_battery_model n ro re cp ce GHI ep = Ok mp →
  length (link_constraints mp) = (5 * (n - 1))%nat.
Proof.
  intros (_ & _ & Hl & _)%create_inv. rewrite Hl. unfold build_link_constraints.
  assert (H : ∀ k a, length (flat_map (λ t, get_pv_ro_variable_pairs t (S t)) (seq a k))
                     = (5 * k)%nat).
  { induction k as [|k IH]; intros a; [done|]. simpl. rewrite IH. lia. }
  apply H.
Qed.

Lemma link_constraints_count_witness :
  ∃ mp, create_default 24 = Ok mp ∧ length (link_constraints mp) = 115%nat.
Proof.
  destruct (create_default 24) as [mp|e] eqn:Hc; [|by vm_compute in Hc].
  exists mp. split; [done|]. unfold create_default in Hc.
  exact (link_constraints_count 24 _ _ _ _ _ _ mp Hc).
Defined.

Lemma zero_point_feasible n ro re cp ce GHI ep mp :
  create_multiperiod_pv_battery_model n ro re cp ce GHI ep = Ok mp →
  feasible mp (λ _, 0).
Proof.
  intros (_ & _ & _ & Hf & _)%create_inv. split; [done|].
  intros f Hin. rewrite Hf in Hin.
  apply elem_of_cons in Hin as [->|Hin]; [done|].
  apply elem_of_cons in Hin as [->|Hin]; [done|].
  by apply elem_of_nil in Hin.
Qed.

(** X4.  At any point that satisfies the links and the fixings, each
    block starts from the battery state the block before ended with, and
    block 0 starts empty. *)
Theorem battery_state_carried_over n ro re cp ce GHI ep mp rho (t : nat) :
  create_multiperiod_pv_battery_model n ro re cp ce GHI ep = Ok mp →
  feasible mp rho → (S t < n)%nat →
  rho (S t, battery_initial_state_of_charge) == rho (t, battery_state_of_charge 0) ∧
  rho (S t, battery_initial_energy_throughput) == rho (t, battery_energy_throughput 0) ∧
  rho (0%nat, battery_initial_state_of_charge) == 0 ∧
  rho (0%nat, battery_initial_energy_throughput) == 0.
Proof.
  intros Hc [Hlink Hfix] Ht.
  pose proof (λ p Hp, Hlink p (link_in_pairs _ _ _ _ _ _ _ _ t p Hc Ht Hp)) as H.
  unfold get_pv_ro_variable_pairs in H.
  apply create_inv in Hc as (_ & _ & _ & Hf & _). rewrite Hf in Hfix.
  repeat split.
  - symmetry.
    apply (H ((t, battery_state_of_charge 0), (S t, battery_initial_state_of_charge))).
    apply list_elem_of_here.
  - symmetry.
    apply (H ((t, battery_energy_throughput 0), (S t, battery_initial_energy_throughput))).
    apply list_elem_of_further, list_elem_of_here.
  - apply (Hfix ((0%nat, battery_initial_state_of_charge), 0)). apply list_elem_of_here.
  - apply (Hfix ((0%nat, battery_initial_energy_throughput), 0)).
    apply list_elem_of_further, list_elem_of_here.
Qed.

Lemma battery_state_carried_over_witness :
  ∃ mp, create_default 24 = Ok mp ∧ feasible mp (λ _, 0) ∧ (S 3 < 24)%nat ∧
    (λ _ : block_var, 0) (0%nat, battery_initial_state_of_charge) == 0.
Proof.
  destruct (create_default 24) as [mp|e] eqn:Hc; [|by vm_compute in Hc].
  exists mp. split; [done|]. unfold create_default in Hc.
  pose proof (zero_point_feasible _ _ _ _ _ _ _ _ Hc) as Hfeas.
  split; [exact Hfeas|]. split; [lia|].
  exact (proj1 (proj2 (proj2
    (battery_state_carried_over 24 _ _ _ _ _ _ mp (λ _, 0) 3 Hc Hfeas ltac:(lia))))).
Defined.

Lemma design_variables_shared_witness :
  ∃ mp, create_default 24 = Ok mp ∧ feasible mp (λ _, 0) ∧ (3 < 24)%nat ∧
    (λ _ : block_var, 0) (3%nat, pv_size) == (λ _ : block_var, 0) (0%nat, pv_size).
Proof.
  destruct (create_default 24) as [mp|e] eqn:Hc; [|by vm_compute in Hc].
  exists mp. split; [done|]. unfold create_default in Hc.
  pose proof (zero_point_feasible _ _ _ _ _ _ _ _ Hc) as Hfeas.
  split; [exact Hfeas|]. split; [lia|].
  exact (proj2 (proj2
    (design_variables_shared 24 _ _ _ _ _ _ mp (λ _, 0) 3 Hc Hfeas ltac:(lia)))).
Defined.

(** X7.  For a plant of non-zero capacity the LCOW expression has a value
    at every point, and that value is the cost per produced volume plus
    0.45 exactly when the total cost is zero or the horizon is 24 hours. *)
Theorem LCOW_is_levelized_only_for_one_day n ro re cp ce GHI ep mp rho :
  create_multiperiod_pv_battery_model n ro re cp ce GHI ep = Ok mp →
  ¬ ro == 0 →
  ∃ tc l, value rho (total_cost mp) = Some tc ∧ value rho (LCOW mp) = Some l ∧
    (l == levelized_cost_of_water tc ro n ↔ tc == 0 ∨ n = 24%nat).
Proof.
  intros Hc Hro.
  destruct (total_cost_has_value _ _ _ _ _ _ _ _ rho Hc) as [tc Htc].
  exists tc, (tc / ro / 24 * inject_Z (Z.of_nat n) + 0.45).
  split; [done|]. split; [by apply (LCOW_value _ _ _ _ _ _ _ _ _ _ Hc)|].
  apply LCOW_formula_levelized_iff; [done|].
  by apply create_inv in Hc as (? & _).
Qed.

Lemma LCOW_is_levelized_only_for_one_day_witness :
  ∃ mp, create_default 24 = Ok mp ∧ ¬ 6000 == 0 ∧
    ∃ tc l, value (grid_only 10) (total_cost mp) = Some tc ∧
            value (grid_only 10) (LCOW mp) = Some l ∧
            (l == levelized_cost_of_water tc 6000 24 ↔ tc == 0 ∨ 24%nat = 24%nat).
Proof.
  destruct (create_default 24) as [mp|e] eqn:Hc; [|by vm_compute in Hc].
  exists mp. split; [done|]. split; [done|]. unfold create_default in Hc.
  exact (LCOW_is_levelized_only_for_one_day 24 6000 _ _ _ _ _ mp (grid_only 10) Hc
           ltac:(done)).
Defined.


Lemma value_fold_left_Add_sum {V} (rho : V → Q) (vs : list V) (acc : expr V) (a : Q) :
  value rho acc = Some a →
  value rho (fold_left Add (map Var vs) acc) = Some (fold_left Qplus (map rho vs) a).
Proof.
  revert acc a. induction vs as [|v vs IH]; intros acc a Ha; simpl; [done|].
  apply IH. simpl. by rewrite Ha.
Qed.

(** X6.  The total cost at a point: the annualized battery and PV cost,
    pro-rated to [n] hours of a 365-day year, plus the grid cost of every
    block. *)
Theorem total_cost_value n ro re cp ce GHI ep mp rho :
  create_multiperiod_pv_battery_model n ro re cp ce GHI ep = Ok mp →
  value rho (total_cost mp) =
    Some ((0.096 * (cp * rho (0%nat, battery_nameplate_power)
                    + ce * rho (0%nat, battery_nameplate_energy))
           + (1040 * rho (0%nat, pv_size) * 0.096 + 9 * rho (0%nat, pv_size)))
          / 365 / 24 * inject_Z (Z.of_nat n)
          + Qsum (map (λ i, rho (i, grid_cost)) (seq 0 n))).
Proof.
  intros (_ & _ & _ & _ & Hb & Hp & Ht & _)%create_inv.
  pose proof (value_fold_left_Add_sum rho (map (λ i, (i, grid_cost)) (seq 0 n))
                (Num 0) 0 eq_refl) as Hs.
  rewrite !map_map in Hs.
  rewrite Ht, Hb, Hp. unfold py_sum, Qsum.
  set (g := fold_left Add _ _) in *. cbn. rewrite Hs. reflexivity.
Qed.

Lemma total_cost_value_witness :
  ∃ mp, create_default 12 = Ok mp ∧
    ∃ tc, value (grid_only 10) (total_cost mp) = Some tc ∧ tc == 120.
Proof.
  destruct (create_default 12) as [mp|e] eqn:Hc; [|by vm_compute in Hc].
  exists mp. split; [done|]. unfold create_default in Hc.
  eexists. split; [exact (total_cost_value 12 _ _ _ _ _ _ mp (grid_only 10) Hc)|].
  reflexivity.
Defined.

End PV_battery_more.

(** ** The LT-MED + VAGMD flowsheet *)
Section med_vagmd_more.
Import MED_VAGMD_flowsheet MED_VAGMD_semibatch.

Lemma add_vagmd_high_salinity_witness :
  ¬ recovery_ratio just_above_threshold_inputs == 1 ∧
  module_type just_above_threshold_inputs = "AS7C1.5L" ∧
  final_brine_salinity_above_threshold
    (feed_salinity just_above_threshold_inputs)
    (recovery_ratio just_above_threshold_inputs) = true ∧
  add_vagmd just_above_threshold_inputs = Ok {|
    config_module_type := "AS7C1.5L";
    config_high_brine_salinity := true;
    config_cooling_system_type := "closed";
    fixed := [ (evaporator_in_temperature, 80 + 273.15);
               (condenser_in_temperature, 25 + 273.15) ] |}.
Proof.
  assert (H1 : ¬ recovery_ratio just_above_threshold_inputs == 1) by (by vm_compute).
  assert (H2 : module_type just_above_threshold_inputs = "AS7C1.5L") by reflexivity.
  assert (H3 : final_brine_salinity_above_threshold
                 (feed_salinity just_above_threshold_inputs)
                 (recovery_ratio just_above_threshold_inputs) = true)
    by (vm_compute; reflexivity).
  split; [exact H1|]. split; [exact H2|]. split; [exact H3|].
  exact (add_vagmd_high_salinity just_above_threshold_inputs H1 H2 H3).
Defined.

Lemma add_vagmd_otherwise_witness :
  ¬ recovery_ratio at_threshold_inputs == 1 ∧
  final_brine_salinity_above_threshold
    (feed_salinity at_threshold_inputs) (recovery_ratio at_threshold_inputs) = false ∧
  add_vagmd at_threshold_inputs = Ok {|
    config_module_type := "AS7C1.5L";
    config_high_brine_salinity := false;
    config_cooling_system_type := "open";
    fixed := [ (evaporator_in_temperature, 70 + 273.15);
               (cooling_in_temperature, 22 + 273.15) ] |}.
Proof.
  assert (H1 : ¬ recovery_ratio at_threshold_inputs == 1) by (by vm_compute).
  assert (H2 : final_brine_salinity_above_threshold
                 (feed_salinity at_threshold_inputs)
                 (recovery_ratio at_threshold_inputs) = false)
    by (vm_compute; reflexivity).
  split; [exact H1|]. split; [exact H2|].
  exact (add_vagmd_otherwise at_threshold_inputs H1 (or_intror H2)).
Defined.

(** X11.  The unit [add_vagmd] builds does not depend on the feed flow
    rate or the feed temperature it is given. *)
Theorem add_vagmd_unused_inputs i q T :
  add_vagmd {| feed_flow_rate := q;
               evap_inlet_temp := evap_inlet_temp i;
               cond_inlet_temp := cond_inlet_temp i;
               feed_temp := T;
               feed_salinity := feed_salinity i;
               recovery_ratio := recovery_ratio i;
               module_type := module_type i;
               cooling_system_type := cooling_system_type i;
               cooling_inlet_temp := cooling_inlet_temp i |}
  = add_vagmd i.
Proof.
  unfold add_vagmd, add_vagmd_locals. cbn.
  destruct (Qis_zero _); [done|]. by destruct (_ && _).
Qed.

Lemma converts_to_zero_at_zero underflows cap :
  cap == 0 → converts_to_zero underflows cap = true.
Proof.
  intros H. unfold converts_to_zero, Qis_zero, per_day_to_per_s.
  apply orb_true_iff. left. apply Qeq_bool_iff. rewrite H. reflexivity.
Qed.

Lemma converts_to_zero_false underflows cap :
  converts_to_zero underflows cap = false → ¬ cap == 0.
Proof.
  intros H Hc. rewrite (converts_to_zero_at_zero underflows cap Hc) in H. done.
Qed.

(** X12.  [add_med] never returns a unit for a system capacity of zero: the
    scaling factor divides by the capacity, which ends the call in
    [ZeroDivisionError]. *)
Theorem add_med_zero_capacity_raises underflows i :
  med_sys_capacity i == 0 →
  add_med underflows i = Raise ZeroDivisionError ∧ ∀ m, add_med underflows i ≠ Ok m.
Proof.
  intros H. unfold add_med.
  rewrite (converts_to_zero_at_zero underflows _ H).
  split; [done|]. intros m. discriminate.
Qed.

Lemma add_med_zero_capacity_raises_witness :
  add_med (λ _, false)
          {| med_feed_salinity := 30; med_feed_temperature := 25;
             med_steam_temperature := 80; med_sys_capacity := 0;
             med_recovery_ratio := 0.5 |} = Raise ZeroDivisionError.
Proof.
  exact (proj1 (add_med_zero_capacity_raises (λ _, false)
                  {| med_feed_salinity := 30; med_feed_temperature := 25;
                     med_steam_temperature := 80; med_sys_capacity := 0;
                     med_recovery_ratio := 0.5 |} ltac:(reflexivity))).
Defined.

(** X13.  The MED unit [add_med] builds: recovery is fixed at 0.5 and the
    feed flow is twice the capacity, whatever recovery ratio the inputs
    name; the temperatures are shifted to kelvin; the default scaling
    factor of the water mass flow is the inverse of the capacity in kg/s
    (at 1000 kg/m3), and that of the salt is ten times as large. *)
Theorem add_med_unit underflows i m :
  add_med underflows i = Ok m →
  number_effects m = 12%Z ∧
  recovery_vol_phase m = 0.5 ∧
  feed_flow_vol_phase m == 2 * med_sys_capacity i / 86400 ∧
  feed_conc_mass_TDS m = med_feed_salinity i ∧
  feed_temperature m = med_feed_temperature i + 273.15 ∧
  steam_temperature m = med_steam_temperature i + 273.15 ∧
  liquid_scaling_H2O m * (1000 * (med_sys_capacity i / 86400)) == 1 ∧
  liquid_scaling_TDS m == 10 * liquid_scaling_H2O m.
Proof.
  unfold add_med. destruct (converts_to_zero _ _) eqn:E; [done|]. intros [= <-]. cbn.
  assert (Hc : ¬ med_sys_capacity i == 0) by (by eapply converts_to_zero_false).
  repeat split; try reflexivity; unfold per_day_to_per_s.
  - field.
  - field. done.
Qed.

Lemma add_med_unit_witness :
  ∃ m, add_med (λ _, false) sample_med_inputs = Ok m ∧ recovery_vol_phase m = 0.5 ∧
       feed_flow_vol_phase m == 2 * 1 / 86400.
Proof.
  destruct (add_med (λ _, false) sample_med_inputs) as [m|e] eqn:Hm;
    [|by vm_compute in Hm].
  exists m. split; [done|].
  pose proof (add_med_unit _ sample_med_inputs m Hm) as (_ & H1 & H2 & _).
  split; [exact H1|exact H2].
Defined.

Lemma value_eq_dt_rhs (rho : fs_var → Q) (c x : Q) :
  value rho (Div (Num c) (m3_per_s_to_L_per_h (Var vagmd_feed_flow_vol))) = Some x →
  ¬ rho vagmd_feed_flow_vol == 0 ∧ x == c / (3600000 * rho vagmd_feed_flow_vol).
Proof.
  cbn. destruct (Qis_zero (3600000 * rho vagmd_feed_flow_vol)) eqn:E; [done|].
  intros [= <-]. split; [|reflexivity].
  intros H. unfold Qis_zero in E.
  assert (Hz : Qeq_bool (3600000 * rho vagmd_feed_flow_vol) 0 = true).
  { apply Qeq_bool_iff. rewrite H. reflexivity. }
  congruence.
Qed.

(** X14.  In the processing phase without a usable [dt] argument ([None]
    or 0), a point that satisfies the flowsheet constraints has a non-zero
    VAGMD feed flow, a time step of 73269.19 (20352.55 for module
    AS7C1.5L) divided by that flow in L/h, the MD feed equal to the VAGMD
    feed, a remained volume of [batch_volume] litres per step, and a tank
    volume that grows by the overflow of the step. *)
Theorem processing_phase_relations module_type batch dt_arg rho :
  truthy dt_arg = false →
  satisfies (add_processing_phase_constraint module_type "processing" batch dt_arg) rho →
  ¬ rho vagmd_feed_flow_vol == 0 ∧
  rho dt == (if String.eqb module_type "AS7C1.5L" then 20352.55 else 73269.19)
            / (3600000 * rho vagmd_feed_flow_vol) ∧
  rho S2_MD_feed_flow_vol == rho vagmd_feed_flow_vol ∧
  rho S2_remained_liquid_flow_vol * rho dt == batch / 1000 ∧
  rho volume_in_tank ==
    rho volume_in_tank_previous + rho S1_overflow_flow_vol * rho dt.
Proof.
  intros Ht (Hc & _ & _). unfold add_processing_phase_constraint in Hc.
  change (String.eqb "processing" "processing") with true in Hc. cbn [constraints] in Hc.
  apply Forall_cons in Hc as [(x1 & y1 & Hx1 & Hy1 & E1) Hc].
  apply Forall_cons in Hc as [(x2 & y2 & Hx2 & Hy2 & E2) Hc].
  apply Forall_cons in Hc as [(x3 & y3 & Hx3 & Hy3 & E3) Hc].
  apply Forall_cons in Hc as [(x4 & y4 & Hx4 & Hy4 & E4) _].
  cbn in Hx2, Hy2, Hx3, Hy3, Hx4, Hy4. simplify_eq.
  unfold eq_dt in Hx1, Hy1. rewrite Ht in Hx1, Hy1.
  destruct (String.eqb module_type "AS7C1.5L"); cbn [fst snd] in Hx1, Hy1;
    apply value_eq_dt_rhs in Hy1 as [Hnz Hy1]; cbn in Hx1; simplify_eq;
    (split; [done|]); (split; [by rewrite E1|]); (split; [done|]);
    (split; [|done]); rewrite E2; field.
Qed.

Lemma processing_point_satisfies :
  satisfies (add_processing_phase_constraint "AS26C7.2L" "processing" 50 None)
            processing_point.
Proof.
  split; [|split; [apply List.Forall_nil|by repeat split]].
  repeat (apply List.Forall_cons;
          [eexists _, _; split; [reflexivity|]; split; [reflexivity|]; reflexivity|]).
  apply List.Forall_nil.
Qed.

Lemma processing_phase_relations_witness :
  truthy None = false ∧
  satisfies (add_processing_phase_constraint "AS26C7.2L" "processing" 50 None)
            processing_point ∧
  processing_point dt == 73269.19 / (3600000 * processing_point vagmd_feed_flow_vol).
Proof.
  split; [reflexivity|]. split; [exact processing_point_satisfies|].
  exact (proj1 (proj2 (processing_phase_relations "AS26C7.2L" 50 None processing_point
                         eq_refl processing_point_satisfies))).
Defined.

(** X15.  A [dt] argument that is a non-zero number fixes the time step to
    that number; the module type then plays no part. *)
Theorem processing_time_step_given module_type batch d rho :
  ¬ d == 0 →
  satisfies (add_processing_phase_constraint module_type "processing" batch (Some d)) rho →
  rho dt == d.
Proof.
  intros Hd (Hc & _ & _). unfold add_processing_phase_constraint in Hc.
  change (String.eqb "processing" "processing") with true in Hc. cbn [constraints] in Hc.
  apply Forall_cons in Hc as [(x1 & y1 & Hx1 & Hy1 & E1) _].
  unfold eq_dt, truthy in Hx1, Hy1. rewrite (Qis_zero_false d Hd) in Hx1, Hy1.
  cbn in Hx1, Hy1. by simplify_eq.
Qed.

Lemma processing_time_step_given_witness :
  ¬ 73269.19 / 600 == 0 ∧
  satisfies (add_processing_phase_constraint "AS26C7.2L" "processing" 50
               (Some (73269.19 / 600))) processing_point ∧
  processing_point dt == 73269.19 / 600.
Proof.
  assert (H1 : ¬ 73269.19 / 600 == 0) by (by vm_compute).
  assert (H2 : satisfies (add_processing_phase_constraint "AS26C7.2L" "processing" 50
                            (Some (73269.19 / 600))) processing_point).
  { split; [|split; [apply List.Forall_nil|by repeat split]].
    repeat (apply List.Forall_cons;
            [eexists _, _; split; [reflexivity|]; split; [reflexivity|]; reflexivity|]).
    apply List.Forall_nil. }
  split; [exact H1|]. split; [exact H2|].
  exact (processing_time_step_given "AS26C7.2L" 50 _ processing_point H1 H2).
Defined.

(** X16.  In the processing phase the tank never loses volume over a step
    with a non-negative overflow. *)
Theorem tank_volume_grows_while_processing module_type batch dt_arg rho :
  satisfies (add_processing_phase_constraint module_type "processing" batch dt_arg) rho →
  0 <= rho S1_overflow_flow_vol →
  rho volume_in_tank_previous <= rho volume_in_tank.
Proof.
  intros (Hc & _ & Hdt & _) Ho. unfold add_processing_phase_constraint in Hc.
  change (String.eqb "processing" "processing") with true in Hc. cbn [constraints] in Hc.
  apply Forall_cons in Hc as [_ Hc]. apply Forall_cons in Hc as [_ Hc].
  apply Forall_cons in Hc as [_ Hc].
  apply Forall_cons in Hc as [(x4 & y4 & Hx4 & Hy4 & E4) _].
  cbn in Hx4, Hy4. simplify_eq. rewrite E4.
  rewrite <- (Qplus_0_r (rho volume_in_tank_previous)) at 1.
  apply Qplus_le_r. by apply Qmult_le_0_compat.
Qed.

Lemma tank_volume_grows_while_processing_witness :
  satisfies (add_processing_phase_constraint "AS26C7.2L" "processing" 50 None)
            processing_point ∧
  0 <= processing_point S1_overflow_flow_vol ∧
  processing_point volume_in_tank_previous <= processing_point volume_in_tank.
Proof.
  assert (H : 0 <= processing_point S1_overflow_flow_vol) by (by vm_compute).
  split; [exact processing_point_satisfies|]. split; [exact H|].
  exact (tank_volume_grows_while_processing "AS26C7.2L" 50 None processing_point
           processing_point_satisfies H).
Defined.

(** X17.  In the refilling phase nothing overflows and the tank is empty;
    the time step is bound only by the remained volume, not by the module
    type or the [dt] argument. *)
Theorem refilling_phase_relations module_type batch dt_arg rho :
  satisfies (add_processing_phase_constraint module_type "refilling" batch dt_arg) rho →
  rho S1_overflow_flow_vol == 0 ∧
  rho volume_in_tank == 0 ∧
  rho S2_MD_feed_flow_vol == rho vagmd_feed_flow_vol ∧
  rho S2_remained_liquid_flow_vol * rho dt == batch / 1000 ∧
  add_processing_phase_constraint module_type "refilling" batch dt_arg
    = add_processing_phase_constraint "AS26C7.2L" "refilling" batch None.
Proof.
  intros (Hc & Hf & _). unfold add_processing_phase_constraint in *.
  change (String.eqb "refilling" "processing") with false in *.
  change (String.eqb "refilling" "refilling") with true in *.
  cbn [constraints fixed_vars] in Hc, Hf.
  apply Forall_cons in Hc as [(x1 & y1 & Hx1 & Hy1 & E1) Hc].
  apply Forall_cons in Hc as [(x2 & y2 & Hx2 & Hy2 & E2) Hc].
  apply Forall_cons in Hc as [(x3 & y3 & Hx3 & Hy3 & E3) _].
  apply Forall_cons in Hf as [Hf _].
  cbn in Hx1, Hy1, Hx2, Hy2, Hx3, Hy3, Hf. simplify_eq.
  repeat split; try done. rewrite E3. field.
Qed.

Lemma refilling_point_satisfies :
  satisfies (add_processing_phase_constraint "AS26C7.2L" "refilling" 50 None)
            refilling_point.
Proof.
  split; [|split; [|by repeat split]].
  - repeat (apply List.Forall_cons;
            [eexists _, _; split; [reflexivity|]; split; [reflexivity|]; reflexivity|]).
    apply List.Forall_nil.
  - apply List.Forall_cons; [reflexivity|apply List.Forall_nil].
Qed.

Lemma refilling_phase_relations_witness :
  satisfies (add_processing_phase_constraint "AS26C7.2L" "refilling" 50 None)
            refilling_point ∧
  refilling_point S1_overflow_flow_vol == 0 ∧ refilling_point volume_in_tank == 0.
Proof.
  split; [exact refilling_point_satisfies|].
  pose proof (refilling_phase_relations "AS26C7.2L" 50 None refilling_point
                refilling_point_satisfies) as (H1 & H2 & _).
  split; [exact H1|exact H2].
Defined.

Lemma build_med_md_flowsheet_inv underflows ph s T Ts cap rr b f d fs :
  build_med_md_flowsheet underflows ph s T Ts cap rr b f d = Ok fs →
  ¬ cap == 0 ∧ ¬ rr == 0 ∧
  fs_vagmd fs = {| config_module_type := "AS26C7.2L";
                   config_high_brine_salinity := false;
                   config_cooling_system_type := "closed";
                   fixed := [ (evaporator_in_temperature, 80 + 273.15);
                              (condenser_in_temperature, 25 + 273.15) ] |} ∧
  recovery_vol_phase (fs_med fs) = 0.5 ∧
  fs_phase fs = add_processing_phase_constraint "AS26C7.2L" ph b d.
Proof.
  unfold build_med_md_flowsheet.
  destruct (add_med _) as [m|e] eqn:Hm; [|done]. cbn [mbind result_bind].
  destruct (Qis_zero rr) eqn:Hr; [done|].
  change (add_vagmd _) with
    (Ok {| config_module_type := "AS26C7.2L";
           config_high_brine_salinity := false;
           config_cooling_system_type := "closed";
           fixed := [ (evaporator_in_temperature, 80 + 273.15);
                      (condenser_in_temperature, 25 + 273.15) ] |}).
  cbn [mbind result_bind]. intros [= <-]. cbn.
  split.
  { intros H. unfold add_med in Hm. cbn in Hm.
    rewrite (converts_to_zero_at_zero underflows cap H) in Hm. done. }
  split.
  { intros H. rewrite (Qis_zero_true rr H) in Hr. done. }
  split; [done|]. split; [|done].
  unfold add_med in Hm. destruct (converts_to_zero _ _); [done|]. by injection Hm as <-.
Qed.

(** X18.  Whatever its arguments, a flowsheet that [build_med_md_flowsheet]
    returns holds a VAGMD unit of module AS26C7.2L that is never in the
    high-salinity mode, with a closed cooling circuit, evaporator inlet at
    80 + 273.15 and condenser inlet at 25 + 273.15; and an MED unit whose
    recovery is 0.5, not the [med_recovry_ratio] argument. *)
Theorem build_med_md_flowsheet_units underflows ph s T Ts cap rr b f d fs :
  build_med_md_flowsheet underflows ph s T Ts cap rr b f d = Ok fs →
  fs_vagmd fs = {| config_module_type := "AS26C7.2L";
                   config_high_brine_salinity := false;
                   config_cooling_system_type := "closed";
                   fixed := [ (evaporator_in_temperature, 80 + 273.15);
                              (condenser_in_temperature, 25 + 273.15) ] |} ∧
  recovery_vol_phase (fs_med fs) = 0.5.
Proof. intros (_ & _ & H1 & H2 & _)%build_med_md_flowsheet_inv. by split. Qed.

Lemma build_med_md_flowsheet_units_witness :
  ∃ fs, build_med_md_flowsheet (λ _, false) "processing" 100 25 80 1 (1 # 4) 50 1100 None
          = Ok fs ∧
        config_high_brine_salinity (fs_vagmd fs) = false ∧
        recovery_vol_phase (fs_med fs) = 0.5.
Proof.
  destruct (build_med_md_flowsheet (λ _, false) "processing" 100 25 80 1 (1 # 4) 50 1100 None)
    as [fs|e] eqn:Hb; [|by vm_compute in Hb].
  exists fs. split; [done|].
  pose proof (build_med_md_flowsheet_units _ _ _ _ _ _ _ _ _ _ fs Hb) as [H1 H2].
  split; [by rewrite H1|exact H2].
Defined.

(** X19.  [build_med_md_flowsheet] returns a flowsheet only for a non-zero MED
    capacity and a non-zero MED recovery ratio: a zero in either ends the
    call in [ZeroDivisionError] (in [add_med], or in
    [med_feed_salinity / med_recovry_ratio]). *)
Theorem build_med_md_flowsheet_needs_nonzero_inputs underflows ph s T Ts cap rr b f d :
  (cap == 0 ∨ rr == 0 →
   build_med_md_flowsheet underflows ph s T Ts cap rr b f d = Raise ZeroDivisionError) ∧
  (∀ fs, build_med_md_flowsheet underflows ph s T Ts cap rr b f d = Ok fs →
         ¬ cap == 0 ∧ ¬ rr == 0).
Proof.
  split.
  - intros H. unfold build_med_md_flowsheet, add_med. cbn.
    destruct (converts_to_zero underflows cap) eqn:Ec; [done|].
    destruct H as [H|H].
    + by rewrite (converts_to_zero_at_zero underflows cap H) in Ec.
    + cbn [mbind result_bind]. by rewrite (Qis_zero_true rr H).
  - intros fs (H1 & H2 & _)%build_med_md_flowsheet_inv. by split.
Qed.

(** X20.  [fix_dof_and_initialize] on a flowsheet from
    [build_med_md_flowsheet]: in the processing phase it sets the time
    step to the [dt] argument when that is a non-zero number and to
    73269.19 / 600 otherwise, takes 50 / 1000 / dt as the flow of the
    remained liquid whatever the batch volume of the flowsheet is, and
    fixes the previous tank volume to 0; in any other phase there is no
    [eq_dt] and the call ends in [AttributeError]. *)
Theorem fix_dof_and_initialize_by_phase
    (calculate_scaling_factors_m : gmap string Q → gmap string Q)
    underflows ph s T Ts cap rr b f d fs sf :
  build_med_md_flowsheet underflows ph s T Ts cap rr b f d = Ok fs →
  (ph = "processing" →
     ∃ st, fix_dof_and_initialize calculate_scaling_factors_m fs sf = Ok st ∧
       init_dt st == (if truthy d then default 0 d else 73269.19 / 600) ∧
       init_remained_liquid_flow_vol st == 0.05 / init_dt st ∧
       init_fixed st = [ (volume_in_tank_previous, 0) ] ∧
       init_scaling_factor st = fix_dof_scaling calculate_scaling_factors_m sf) ∧
  (ph ≠ "processing" →
     fix_dof_and_initialize calculate_scaling_factors_m fs sf
       = Raise (FrameworkError "AttributeError: eq_dt")).
Proof.
  intros (_ & _ & _ & _ & Hp)%build_med_md_flowsheet_inv.
  unfold fix_dof_and_initialize, get_constraint. rewrite Hp. split.
  - intros ->. unfold add_processing_phase_constraint.
    change (String.eqb "processing" "processing") with true. cbn [constraints].
    change (list_find _ _) with (Some (0%nat, ("eq_dt", eq_dt "AS26C7.2L" d))).
    cbn [mbind result_bind snd]. unfold eq_dt.
    destruct (truthy d) eqn:Ht.
    + destruct d as [q|]; [|done].
      unfold truthy in Ht. apply negb_true_iff in Ht. cbn. rewrite Ht.
      eexists. split; [reflexivity|]. cbn.
      split; [reflexivity|]. split; [|by split].
      field. intros Hq. by rewrite (Qis_zero_true q Hq) in Ht.
    + change (String.eqb "AS26C7.2L" "AS7C1.5L") with false. cbn [snd].
      eexists. split; [reflexivity|]. cbn. repeat split; reflexivity.
  - intros Hne. unfold add_processing_phase_constraint.
    destruct (String.eqb ph "processing") eqn:E.
    { apply String.eqb_eq in E. done. }
    destruct (String.eqb ph "refilling"); reflexivity.
Qed.

Lemma fix_dof_and_initialize_by_phase_witness :
  ∃ fs, build_med_md_flowsheet (λ _, false) "refilling" 30 25 80 1 0.5 50 600 None = Ok fs ∧
        "refilling" ≠ "processing" ∧
        fix_dof_and_initialize id fs ∅ = Raise (FrameworkError "AttributeError: eq_dt").
Proof.
  destruct (build_med_md_flowsheet (λ _, false) "refilling" 30 25 80 1 0.5 50 600 None)
    as [fs|e] eqn:Hb; [|by vm_compute in Hb].
  exists fs. split; [done|].
  assert (Hne : "refilling" ≠ "processing") by done.
  split; [exact Hne|].
  exact (proj2 (fix_dof_and_initialize_by_phase id _ _ _ _ _ _ _ _ _ _ fs ∅ Hb) Hne).
Defined.

(** X21.  The scaling block of [fix_dof_and_initialize] never replaces a
    factor of [volume_in_tank] or [dt] that is set, and running it a
    second time changes nothing. *)
Theorem flowsheet_scaling_idempotent (sf : gmap string Q) :
  flowsheet_scaling (flowsheet_scaling sf) = flowsheet_scaling sf ∧
  (∀ v, sf !! "fs.volume_in_tank" = Some v →
        flowsheet_scaling sf !! "fs.volume_in_tank" = Some v ∧
        flowsheet_scaling sf !! "fs.volume_in_tank_previous"
          = sf !! "fs.volume_in_tank_previous") ∧
  (∀ v, sf !! "fs.dt" = Some v → flowsheet_scaling sf !! "fs.dt" = Some v).
Proof.
  unfold flowsheet_scaling, iscale.get_scaling_factor, iscale.set_scaling_factor.
  destruct (sf !! "fs.volume_in_tank") as [v|] eqn:E1;
    destruct (sf !! "fs.dt") as [w|] eqn:E2;
    rewrite ?lookup_insert_ne, ?E2 by done;
    repeat (rewrite ?lookup_insert_eq, ?lookup_insert_ne, ?E1, ?E2 by done);
    repeat split; intros; simplify_eq;
    repeat (rewrite ?lookup_insert_eq, ?lookup_insert_ne, ?E1, ?E2 by done); try done.
Qed.

End med_vagmd_more.

(** ** The flat-plate collector *)
Section flat_plate_more.
Import flat_plate_pysam.

Lemma calculate_scaling_factors_lookup (sf : gmap string Q) (c : string) :
  calculate_scaling_factors sf !! c =
  if decide (c ∈ scaled_components) then Some (default 1 (sf !! c)) else sf !! c.
Proof.
  unfold calculate_scaling_factors. rewrite !default_scaling_lookup.
  destruct (decide (c ∈ scaled_components)) as [Hin|Hout].
  - unfold scaled_components in Hin.
    repeat (apply elem_of_cons in Hin as [->|Hin]);
      [..|by apply elem_of_nil in Hin]; by destruct (sf !! _).
  - repeat (destruct (decide (_ = c)) as [<-|_];
              [exfalso; apply Hout; unfold scaled_components;
               repeat first [apply list_elem_of_here|apply list_elem_of_further]|]).
    done.
Qed.

(** X22.  [calculate_scaling_factors] never replaces a factor that is
    set, leaves every one of its five components with a factor, and
    changes nothing when run a second time. *)
Theorem calculate_scaling_factors_idempotent (sf : gmap string Q) :
  calculate_scaling_factors (calculate_scaling_factors sf) = calculate_scaling_factors sf ∧
  (∀ c v, sf !! c = Some v → calculate_scaling_factors sf !! c = Some v) ∧
  (∀ c, c ∈ scaled_components → is_Some (calculate_scaling_factors sf !! c)).
Proof.
  split; [|split].
  - apply map_eq. intros c. rewrite !calculate_scaling_factors_lookup.
    destruct (decide (c ∈ scaled_components)); [|done]. by destruct (sf !! c).
  - intros c v Hc. rewrite calculate_scaling_factors_lookup, Hc.
    by destruct (decide (c ∈ scaled_components)).
  - intros c Hc. rewrite calculate_scaling_factors_lookup.
    rewrite decide_True by done. eauto.
Qed.

End flat_plate_more.

(** ** The scripts: what a failed solve leads to *)

(** *** Programs that report nothing *)

Lemma quiet_ret {A} (a : A) : quiet (ret a).
Proof. intros o n. apply List.Forall_nil. Qed.

Lemma quiet_raise {A} e : quiet (@raise A e).
Proof. intros o n. apply List.Forall_nil. Qed.

Lemma quiet_emit e : is_report e = false → quiet (emit e).
Proof. intros H o n. apply List.Forall_cons; [done|apply List.Forall_nil]. Qed.

Lemma quiet_call k c : quiet (call k c).
Proof. intros o n. apply List.Forall_cons; [done|apply List.Forall_nil]. Qed.

Lemma quiet_bind {A B} (c : M A) (k : A → M B) :
  quiet c → (∀ a, quiet (k a)) → quiet (bind c k).
Proof.
  intros Hc Hk o n. unfold bind. specialize (Hc o n).
  destruct (res (c o n)) as [a|e]; cbn; [|done].
  apply Forall_app. split; [done|apply Hk].
Qed.

Lemma quiet_invoke k c : quiet (invoke k c).
Proof. apply quiet_bind; [apply quiet_call|intros; apply quiet_ret]. Qed.

Ltac quiet_step :=
  first
    [ apply quiet_invoke
    | apply quiet_call
    | apply quiet_ret
    | apply quiet_raise
    | apply quiet_emit; reflexivity
    | apply quiet_bind; [|intros ?]
    | match goal with
      | |- quiet (match ?x with _ => _ end) => destruct x
      end ].

Ltac quiet_auto := repeat quiet_step.

Lemma reports_iff_returns_emit e : reports_iff_returns e (emit e).
Proof. intros o n. cbn. split; [done|]. intros _. apply list_elem_of_here. Qed.

Lemma reports_iff_returns_bind {A} e (c : M A) (k : A → M unit) :
  is_report e = true → quiet c → (∀ a, reports_iff_returns e (k a)) →
  reports_iff_returns e (bind c k).
Proof.
  intros He Hc Hk o n. unfold bind. specialize (Hc o n).
  assert (Hn : e ∉ trace (c o n)).
  { intros Hin. rewrite Forall_forall in Hc. specialize (Hc e Hin). congruence. }
  destruct (res (c o n)) as [a|x]; cbn.
  - rewrite elem_of_app, <- (Hk a o (calls (c o n))). tauto.
  - split; [done|discriminate].
Qed.

Lemma fails_quietly_bind_l {A B} (c : M A) (k : A → M B) :
  fails_quietly c → fails_quietly (bind c k).
Proof.
  intros Hc o n Ho. destruct (Hc o n Ho) as [H1 H2]. unfold bind.
  destruct (res (c o n)) as [a|e]; [done|]. by split.
Qed.

Lemma fails_quietly_bind_r {A B} (c : M A) (k : A → M B) :
  quiet c → (∀ a, fails_quietly (k a)) → fails_quietly (bind c k).
Proof.
  intros Hc Hk o n Ho. unfold bind. specialize (Hc o n).
  destruct (res (c o n)) as [a|e]; cbn; [|by split].
  destruct (Hk a o (calls (c o n)) Ho) as [H1 H2].
  split; [done|]. apply Forall_app. by split.
Qed.

Section scripts_more.
Import KBHDP_RPT_3 flat_plate_pysam.

Lemma solve_not_optimal_prints_witness :
  always {| optimal := false |} 0%nat = Returns {| optimal := false |} ∧
  check_optimal_termination {| optimal := false |} = false ∧
  res (solve "m" None true false (always {| optimal := false |}) 0%nat)
    = Ok {| optimal := false |}.
Proof.
  split; [reflexivity|]. split; [reflexivity|].
  exact (proj1 (solve_not_optimal_prints "m" None true
                  (always {| optimal := false |}) 0%nat {| optimal := false |}
                  eq_refl eq_refl)).
Defined.


Lemma initialize_default_solver_witness :
  res (initialize "fpc" None (always {| optimal := false |}) 0%nat)
    = Raise (InitializationError "Unit model fpc failed to initialize").
Proof.
  exact (proj2 (proj1 (initialize_default_solver "fpc"
                         (always {| optimal := false |}) 0%nat {| optimal := false |}
                         eq_refl)) eq_refl).
Defined.

(** X24.  [solve] with [raise_on_failure] returns a result only when the solver
    returned it and its termination is optimal. *)
Theorem solve_returns_only_optimal m solver tee o n r :
  res (solve m solver tee true o n) = Ok r →
  o n = Returns r ∧ check_optimal_termination r = true.
Proof.
  unfold solve. destruct solver; run_prog; destruct (o n) as [r'|e]; cbn;
    try done; destruct (check_optimal_termination r') eqn:E; cbn;
    intros [= <-]; done.
Qed.

Lemma solve_returns_only_optimal_witness :
  res (solve "m" None false true (always {| optimal := true |}) 0%nat)
    = Ok {| optimal := true |} ∧
  always {| optimal := true |} 0%nat = Returns {| optimal := true |}.
Proof.
  assert (H : res (solve "m" None false true (always {| optimal := true |}) 0%nat)
              = Ok {| optimal := true |}) by reflexivity.
  split; [exact H|].
  exact (proj1 (solve_returns_only_optimal "m" None false _ 0%nat _ H)).
Defined.

Lemma quiet_solve m solver tee rof : quiet (solve m solver tee rof).
Proof.
  unfold solve. quiet_auto.
Qed.

Lemma quiet_build_system : quiet build_system.
Proof. unfold build_system. quiet_auto. Qed.

Lemma quiet_add_connections : quiet add_connections.
Proof. unfold add_connections. quiet_auto. Qed.

Lemma quiet_add_costing : quiet add_costing.
Proof. unfold add_costing. quiet_auto. Qed.

Lemma quiet_add_constraints : quiet add_constraints.
Proof. unfold add_constraints. quiet_auto. Qed.

Lemma quiet_apply_scaling : quiet apply_scaling.
Proof. unfold apply_scaling. quiet_auto. Qed.

Lemma quiet_set_operating_conditions : quiet set_operating_conditions.
Proof. unfold set_operating_conditions, set_inlet_conditions. quiet_auto. Qed.

Lemma quiet_init_system s : quiet (init_system s).
Proof. unfold init_system, propagate_state. quiet_auto. Qed.

Lemma quiet_optimize_rpt3 g h ob : quiet (optimize_rpt3 g h ob).
Proof.
  unfold optimize_rpt3. quiet_auto.
Qed.

Lemma quiet_build_sweep g h ob : quiet (build_sweep g h ob).
Proof.
  unfold build_sweep.
  repeat first
    [ apply quiet_build_system | apply quiet_add_connections
    | apply quiet_set_operating_conditions | apply quiet_apply_scaling
    | apply quiet_init_system | apply quiet_solve | apply quiet_add_costing
    | apply quiet_optimize_rpt3 | apply quiet_emit; reflexivity
    | apply quiet_bind; [|intros ?] ].
Qed.

Lemma fails_quietly_solve m solver tee : fails_quietly (solve m solver tee true).
Proof.
  intros o n Ho. split; [|apply quiet_solve].
  unfold solve. destruct solver; run_prog; destruct (o n) as [r|e] eqn:E;
    try done; rewrite (Ho n r E); done.
Qed.

Ltac kbhdp_quiet :=
  first
    [ apply quiet_build_system | apply quiet_add_connections
    | apply quiet_add_constraints
    | apply quiet_set_operating_conditions | apply quiet_apply_scaling
    | apply quiet_init_system | apply quiet_solve | apply quiet_add_costing
    | apply quiet_optimize_rpt3 | apply quiet_build_sweep
    | apply quiet_emit; reflexivity ].

(** X26.  [main] of KBHDP_RPT_3 prints the LCOT exactly when it returns: an
    exception at any step before, one of the three solves with
    [raise_on_failure] included, leaves the LCOT unprinted. *)
Theorem main_reports_LCOT_iff_it_returns o n :
  Reported m_LCOT ∈ trace (main o n) ↔ res (main o n) = Ok tt.
Proof.
  revert o n. change (reports_iff_returns (Reported m_LCOT) main). unfold main.
  repeat (apply reports_iff_returns_bind; [reflexivity|kbhdp_quiet|intros ?]).
  apply reports_iff_returns_emit.
Qed.

(** X27.  With a solver that never terminates optimally, [main], [build_sweep]
    and the [__main__] block of KBHDP_RPT_3 all end in an exception, and no
    levelized cost has been printed or displayed by then. *)
Theorem KBHDP_needs_an_optimal_solve o n g h ob :
  never_optimal o →
  (is_raise (res (main o n)) = true ∧
   Forall (λ e, is_report e = false) (trace (main o n))) ∧
  (is_raise (res (build_sweep g h ob o n)) = true ∧
   Forall (λ e, is_report e = false) (trace (build_sweep g h ob o n))) ∧
  (is_raise (res (script o n)) = true ∧
   Forall (λ e, is_report e = false) (trace (script o n))).
Proof.
  assert (Hs : ∀ g h ob, fails_quietly (build_sweep g h ob)).
  { intros g' h' ob'. unfold build_sweep.
    repeat first
      [ apply fails_quietly_bind_l; apply fails_quietly_solve
      | apply fails_quietly_bind_r; [kbhdp_quiet|intros ?] ]. }
  assert (Hm : fails_quietly main).
  { unfold main.
    repeat first
      [ apply fails_quietly_bind_l; apply fails_quietly_solve
      | apply fails_quietly_bind_r; [kbhdp_quiet|intros ?] ]. }
  assert (Hc : fails_quietly script).
  { unfold script. apply fails_quietly_bind_l, Hs. }
  intros Ho. split; [exact (Hm o n Ho)|]. split; [exact (Hs g h ob o n Ho)|].
  exact (Hc o n Ho).
Qed.

Lemma KBHDP_needs_an_optimal_solve_witness :
  never_optimal (always {| optimal := false |}) ∧
  is_raise (res (main (always {| optimal := false |}) 0%nat)) = true.
Proof.
  assert (H : never_optimal (always {| optimal := false |})).
  { intros k r [= <-]. reflexivity. }
  split; [exact H|].
  exact (proj1 (proj1 (KBHDP_needs_an_optimal_solve
                         (always {| optimal := false |}) 0%nat None None "LCOT" H))).
Defined.

End scripts_more.

(** ** The scripts that never check, or check a stale result *)
Section scripts_termination.
Import permian_ST2_MD.

(** X28.  The [__main__] block of PV_RO_battery_mutiperiod_class.py and the
    script PV_RO_battery_demo.py never look at the solver's results:
    whatever the solver returns, optimal or not, both run to their end and
    print the LCOW. *)
Theorem PV_scripts_report_whatever_the_solver_returns (r : nat → SolverResults) n :
  res (PV_RO_battery_mutiperiod_class.main (λ k, Returns (r k)) n) = Ok tt ∧
  Reported m_LCOW ∈ trace (PV_RO_battery_mutiperiod_class.main (λ k, Returns (r k)) n) ∧
  res (PV_RO_battery_demo.script (λ k, Returns (r k)) n) = Ok tt ∧
  Reported m_LCOW ∈ trace (PV_RO_battery_demo.script (λ k, Returns (r k)) n).
Proof.
  split; [by vm_compute|]. split.
  { set (t := trace _). vm_compute in t. subst t.
    repeat first [apply list_elem_of_here|apply list_elem_of_further]. }
  split; [by vm_compute|].
  set (t := trace _). vm_compute in t. subst t.
  repeat first [apply list_elem_of_here|apply list_elem_of_further].
Qed.

(** X30.  The last solve of [run_permian_st2_md] sits in a [try] block that
    swallows [ValueError]: the termination check that follows then looks
    at the result of the solve before, so it passes exactly when that
    earlier solve was optimal.  Any other exception of the solver
    propagates; a result the solver returns is the one checked. *)
Theorem last_solve_ValueError_checks_previous_result results o n :
  res (bind (resolve_after_costing results) assert_optimal_termination o n) =
    match o n with
    | Returns r => res (assert_optimal_termination r o (S n))
    | Throws ValueError => res (assert_optimal_termination results o (S n))
    | Throws e => Raise e
    end ∧
  trace (bind (resolve_after_costing results) assert_optimal_termination o n) =
    match o n with
    | Returns _ | Throws ValueError =>
        [ Called Solve "m"; Called Diagnose "print_infeasible_constraints" ]
    | Throws _ => [ Called Solve "m" ]
    end.
Proof.
  unfold resolve_after_costing, try_except_ValueError, assert_optimal_termination.
  run_prog. destruct (o n) as [r|[]]; cbn;
    repeat match goal with |- context [check_optimal_termination ?x] =>
             destruct (check_optimal_termination x) end; split; reflexivity.
Qed.

Lemma quiet_for_each {A} (xs : list A) (body : A → M unit) :
  (∀ x, quiet (body x)) → quiet (for_each xs body).
Proof.
  intros H. induction xs as [|x xs IH]; cbn [for_each]; [apply quiet_ret|].
  apply quiet_bind; [apply H|intros _; apply IH].
Qed.

Lemma quiet_assert_optimal_termination r : quiet (assert_optimal_termination r).
Proof.
  unfold assert_optimal_termination.
  destruct (check_optimal_termination r); [apply quiet_ret|apply quiet_raise].
Qed.

Lemma quiet_try_except_ValueError {A} (body handler : M A) :
  quiet body → quiet handler → quiet (try_except_ValueError body handler).
Proof.
  intros Hb Hh o n. unfold try_except_ValueError. specialize (Hb o n).
  destruct (res (body o n)) as [a|[]]; try done.
  cbn. apply Forall_app. split; [done|apply Hh].
Qed.

Ltac permian_quiet_step :=
  first
    [ apply quiet_assert_optimal_termination
    | apply quiet_try_except_ValueError
    | apply quiet_for_each; intros ?
    | quiet_step ].

Lemma quiet_get_stream_density : quiet get_stream_density.
Proof. unfold get_stream_density. repeat permian_quiet_step. Qed.

Lemma quiet_build_permian_st2_md d : quiet (build_permian_st2_md d).
Proof. unfold build_permian_st2_md. repeat permian_quiet_step. Qed.

Lemma quiet_set_operating_conditions_st2_md : quiet set_operating_conditions_st2_md.
Proof. unfold set_operating_conditions_st2_md. repeat permian_quiet_step. Qed.

Lemma quiet_add_costing_st2_md d : quiet (add_costing_st2_md d).
Proof. unfold add_costing_st2_md. repeat permian_quiet_step. Qed.

Lemma quiet_set_permian_pretreatment_scaling_st2_md b :
  quiet (set_permian_pretreatment_scaling_st2_md b).
Proof. unfold set_permian_pretreatment_scaling_st2_md. repeat permian_quiet_step. Qed.

Lemma quiet_init_system_st2_md : quiet init_system_st2_md.
Proof. unfold init_system_st2_md, propagate_state. repeat permian_quiet_step. Qed.

Ltac permian_quiet :=
  first
    [ apply quiet_get_stream_density | apply quiet_build_permian_st2_md
    | apply quiet_set_operating_conditions_st2_md | apply quiet_add_costing_st2_md
    | apply quiet_set_permian_pretreatment_scaling_st2_md
    | apply quiet_init_system_st2_md
    | unfold propagate_state; repeat permian_quiet_step ].

Lemma fails_quietly_call_assert {B} k c (rest : unit → M B) :
  fails_quietly (bind (call k c) (λ r, bind (assert_optimal_termination r) rest)).
Proof.
  intros o n Ho. unfold assert_optimal_termination. run_prog.
  destruct (o n) as [r|e] eqn:E; cbn.
  - rewrite (Ho n r E). cbn. split; [done|].
    apply List.Forall_cons; [done|apply List.Forall_nil].
  - split; [done|]. apply List.Forall_cons; [done|apply List.Forall_nil].
Qed.

(** X29.  [run_permian_st2_md] prints the LCOW exactly when it returns, and with
    a solver that never terminates optimally it does not return: it ends
    in an exception with no levelized cost printed. *)
Theorem run_permian_st2_md_reports_iff_it_returns d o n :
  (Reported m_LCOW ∈ trace (run_permian_st2_md d o n)
   ↔ res (run_permian_st2_md d o n) = Ok tt) ∧
  (never_optimal o →
   is_raise (res (run_permian_st2_md d o n)) = true ∧
   Forall (λ e, is_report e = false) (trace (run_permian_st2_md d o n))).
Proof.
  split.
  - revert o n. change (reports_iff_returns (Reported m_LCOW) (run_permian_st2_md d)).
    unfold run_permian_st2_md.
    repeat (apply reports_iff_returns_bind; [reflexivity|permian_quiet|intros ?]).
    apply reports_iff_returns_emit.
  - revert o n. change (fails_quietly (run_permian_st2_md d)).
    unfold run_permian_st2_md.
    repeat first
      [ apply fails_quietly_call_assert
      | apply fails_quietly_bind_r; [permian_quiet|intros ?] ].
Qed.

End scripts_termination.
